(** * tspl2: a shallow embedding of the TSPL2 command encoder of [src/lib.rs]

    The [Printer] of the crate owns a device file and a resolution; every
    command validates its arguments, formats one CRLF-terminated command line
    and writes it with [write_all].  This file models:
    - [f32] arithmetic as IEEE-754 binary32 ([SpecFloat] with 24 bits of
      precision and [emax = 128]), and Rust's saturating [f32 as u32] cast;
    - Rust's [format!] of unsigned integers and of [{:03}];
    - the device file as a sink that may accept a bounded number of bytes;
    - the [Result]-returning methods as a state and error monad over the
      [Printer], with a third outcome for Rust panics ([unimplemented!]). *)

From Stdlib Require Import ZArith String Ascii List Bool Lia.
From Stdlib Require Import SpecFloat DecimalString.
Import ListNotations.

Open Scope Z_scope.
Open Scope string_scope.

(** ** Machine numbers *)

Module F32.

(** IEEE-754 binary32: 24 bits of mantissa, exponent of the infinities 128. *)
Definition prec : Z := 24.
Definition emax : Z := 128.

Definition f32 := spec_float.

Definition mul : f32 -> f32 -> f32 := SFmul prec emax.
Definition div : f32 -> f32 -> f32 := SFdiv prec emax.

(** [n as f32] for an unsigned integer [n]: round to nearest, ties to even. *)
Definition of_u32 (n : Z) : f32 := binary_normalize prec emax n 0 false.

(** A decimal literal [num / den] (e.g. [25.4] is [254 / 10]): the
    correctly rounded quotient, which is what the Rust parser yields. *)
Definition lit (num den : Z) : f32 := div (of_u32 num) (of_u32 den).

Definition u32_max : Z := 4294967295.

(** Rust's [x as u32] for [x : f32] (saturating since Rust 1.45): NaN and
    everything below zero give 0, [+inf] and everything above [u32::MAX]
    give [u32::MAX], the rest is truncated toward zero. *)
Definition as_u32 (x : f32) : Z :=
  match x with
  | S754_zero _ | S754_nan | S754_infinity true | S754_finite true _ _ => 0
  | S754_infinity false => u32_max
  | S754_finite false m e => Z.min (Z.shiftl (Zpos m) e) u32_max
  end.

End F32.

Import F32.

(** ** Formatting (Rust's [format!]) *)

Module Fmt.

Definition crlf : string := String (ascii_of_nat 13) (String (ascii_of_nat 10) EmptyString).
Definition dq : string := String (ascii_of_nat 34) EmptyString.

(** [{}] of an unsigned integer. *)
Definition dec (n : Z) : string := NilZero.string_of_uint (N.to_uint (Z.to_N n)).

(** [{:0w}] of an unsigned integer: left-padded with zeros to width [w]. *)
Fixpoint zeros (k : nat) : string :=
  match k with
  | O => EmptyString
  | S k => String "0" (zeros k)
  end.

Definition pad0 (w : nat) (n : Z) : string :=
  let s := dec n in zeros (w - String.length s) ++ s.

(** [{}] of a [bool] cast with [as u8]. *)
Definition bool_u8 (b : bool) : string := if b then "1" else "0".

End Fmt.

Import Fmt.

(** ** Measurement: [Size] and [Size::to_dots_raw] *)

Inductive Size :=
| Imperial (x : f32)
| Metric (x : f32)
| Dots (x : Z).

(** The literal [25.4] of [to_dots_raw]. *)
Definition mm_per_inch : f32 := lit 254 10.

(** [Size::to_dots_raw]: [(x * resolution as f32) as u32],
    [(x / 25.4 * resolution as f32) as u32], or [x]. *)
Definition to_dots_raw (s : Size) (resolution : Z) : Z :=
  match s with
  | Imperial x => as_u32 (mul x (of_u32 resolution))
  | Metric x => as_u32 (mul (div x mm_per_inch) (of_u32 resolution))
  | Dots x => x
  end.

(** [impl Display for Size], given the [Display] of [f32]; Rust prints the
    shortest decimal that reads back as the same [f32], which is kept as a
    parameter: the claims below do not depend on it. *)
Definition size_display (f32_display : f32 -> string) (s : Size) : string :=
  match s with
  | Imperial x => f32_display x
  | Metric x => f32_display x ++ " mm"
  | Dots x => dec x ++ " dot"
  end.

(** ** Protocol vocabulary *)

Module Vocab.

Inductive Country :=
| Usa | CanadianFrench | SpanishLatinAmerica | Dutch | Belgian | French
| Spanish | Hungarian | Yugoslavian | Italian | Switzerland | Slovak
| UnitedKingdom | Danish | Swedish | Norwegian | Polish | German | Brazil
| English | Portuguese | Finnish.

(** The explicit discriminants of [enum Country] ([country as u16]). *)
Definition country_code (c : Country) : Z :=
  match c with
  | Usa => 1 | CanadianFrench => 2 | SpanishLatinAmerica => 3 | Dutch => 31
  | Belgian => 32 | French => 33 | Spanish => 34 | Hungarian => 36
  | Yugoslavian => 38 | Italian => 39 | Switzerland => 41 | Slovak => 42
  | UnitedKingdom => 44 | Danish => 45 | Swedish => 46 | Norwegian => 47
  | Polish => 48 | German => 49 | Brazil => 55 | English => 61
  | Portuguese => 351 | Finnish => 358
  end.

Inductive Rotation := NoRotation | Rotation90 | Rotation180 | Rotation270.

Definition rotation_token (r : Rotation) : string :=
  match r with
  | NoRotation => "0" | Rotation90 => "90" | Rotation180 => "180" | Rotation270 => "270"
  end.

Inductive Alignment := Default | Left | Center | Right.

Definition alignment_token (a : Alignment) : string :=
  match a with
  | Default => "0" | Left => "1" | Center => "2" | Right => "3"
  end.

Inductive Font :=
| FontMonotye | Font8x12 | Font12x20 | Font16x24 | Font24x32 | Font32x48
| Font14x19 | Font21x27 | Font14x25 | FontRoman | FontEpl1 | FontEpl2
| FontEpl3 | FontEpl4 | FontEpl5 | FontZplA | FontZplB | FontZplD
| FontZplE8 | FontZplF | FontZplG | FontZplH8 | FontZplGs.

Definition font_token (f : Font) : string :=
  match f with
  | FontMonotye => "0" | Font8x12 => "1" | Font12x20 => "2" | Font16x24 => "3"
  | Font24x32 => "4" | Font32x48 => "5" | Font14x19 => "6" | Font21x27 => "7"
  | Font14x25 => "8" | FontRoman => "ROMAN.TTF" | FontEpl1 => "1.EFT"
  | FontEpl2 => "2.EFT" | FontEpl3 => "3.RFT" | FontEpl4 => "4.EFT"
  | FontEpl5 => "5.EFT" | FontZplA => "A.FNT" | FontZplB => "B.FNT"
  | FontZplD => "D.FNT" | FontZplE8 => "E8.FNT" | FontZplF => "F.FNT"
  | FontZplG => "G.FNT" | FontZplH8 => "H8.FNT" | FontZplGs => "GS.FNT"
  end.

Inductive QrCodeJustification :=
| UpperLeft | UpperCenter | UpperRight | CenterLeft | QrCenter | CenterRight
| BottomLeft | BottomCenter | BottomRight.

Definition justification_token (j : QrCodeJustification) : string :=
  match j with
  | UpperLeft => "J1" | UpperCenter => "J2" | UpperRight => "J3"
  | CenterLeft => "J4" | QrCenter => "J5" | CenterRight => "J6"
  | BottomLeft => "J7" | BottomCenter => "J8" | BottomRight => "J9"
  end.

Inductive RssType :=
| Rss14 | Rss14T | Rss14S | Rss14So | RssLim | RssExp | UpcA | UpcE
| Ean13 | Ean8 | Ucc128Cca | Ucc128Ccc.

Definition rss_token (t : RssType) : string :=
  match t with
  | Rss14 => "RSS14" | Rss14T => "RSS14T" | Rss14S => "RSS14S"
  | Rss14So => "RSS14SO" | RssLim => "RSSLIM" | RssExp => "RSSEXP"
  | UpcA => "UPCA" | UpcE => "UPCE" | Ean13 => "EAN13" | Ean8 => "EAN8"
  | Ucc128Cca => "UCC128CCA" | Ucc128Ccc => "UCC128CCC"
  end.

Inductive HumanReadable :=
| NotReadable | ReadableAlignsToLeft | ReadableAlignsToCenter | ReadableAlignsToRight.

Definition human_readable_token (h : HumanReadable) : string :=
  match h with
  | NotReadable => "0" | ReadableAlignsToLeft => "1"
  | ReadableAlignsToCenter => "2" | ReadableAlignsToRight => "3"
  end.

Inductive NarrowWide := N1W1 | N1W2 | N1W3 | N2W5 | N3W7.

Definition narrow_wide_token (n : NarrowWide) : string :=
  match n with
  | N1W1 => "1,1" | N1W2 => "1,2" | N1W3 => "1,3" | N2W5 => "2,5" | N3W7 => "3,7"
  end.

Inductive BitmapMode := Overwrite | Or | Xor.

Definition bitmap_mode_token (m : BitmapMode) : string :=
  match m with
  | Overwrite => "0" | Or => "1" | Xor => "2"
  end.

Inductive Barcode :=
| Barcode128 | Barcode128M | BarcodeEan128 | BarcodeEan128M | Barcode25 | Barcode25C
| Barcode25S | Barcode25I | Barcode39 | Barcode39C | Barcode93 | BarcodeEan13
| BarcodeEan13Plus2 | BarcodeEan13Plus5 | BarcodeEan8 | BarcodeEan8Plus2
| BarcodeEan8Plus5 | BarcodeCoda | BarcodePost | BarcodeUpca | BarcodeUpcaPlus2
| BarcodeUpaPlus5 | BarcodeUpce | BarcodeUpcePlus2 | BarcodeUpePlus5 | BarcodeMsi
| BarcodeMsic | BarcodePlessey | BarcodeCpost | BarcodeItf14 | BarcodeEan14 | Barcode11
| BarcodeTelepen | BarcodeTelepenN | BarcodePlanet | BarcodeCode49 | BarcodeDpi
| BarcodeDpl | BarcodeLogmars.

Definition barcode_token (b : Barcode) : string :=
  match b with
  | Barcode128 => "128" | Barcode128M => "128M" | BarcodeEan128 => "EAN128"
  | BarcodeEan128M => "EAN128M" | Barcode25 => "25" | Barcode25C => "25C"
  | Barcode25S => "25S" | Barcode25I => "25I" | Barcode39 => "39" | Barcode39C => "39C"
  | Barcode93 => "93" | BarcodeEan13 => "EAN13" | BarcodeEan13Plus2 => "EAN13+2"
  | BarcodeEan13Plus5 => "EAN13+5" | BarcodeEan8 => "EAN8" | BarcodeEan8Plus2 => "EAN8+2"
  | BarcodeEan8Plus5 => "EAN8+5" | BarcodeCoda => "CODA" | BarcodePost => "POST"
  | BarcodeUpca => "UPCA" | BarcodeUpcaPlus2 => "UPCA+2" | BarcodeUpaPlus5 => "UPCA+5"
  | BarcodeUpce => "UPCE" | BarcodeUpcePlus2 => "UPCE+2" | BarcodeUpePlus5 => "UPCE+5"
  | BarcodeMsi => "MSI" | BarcodeMsic => "MSIC" | BarcodePlessey => "PLESSEY"
  | BarcodeCpost => "CPOST" | BarcodeItf14 => "ITF14" | BarcodeEan14 => "EAN14"
  | Barcode11 => "11" | BarcodeTelepen => "TELEPEN" | BarcodeTelepenN => "TELEPENN"
  | BarcodePlanet => "PLANET" | BarcodeCode49 => "CODE49" | BarcodeDpi => "DPI"
  | BarcodeDpl => "DPL" | BarcodeLogmars => "LOGMARS"
  end.

Inductive Selftest := All | Pattern | Ethernet | Wlan | Rs232 | System | SelftestZ | Bt.

Definition selftest_token (t : Selftest) : string :=
  match t with
  | All => "" | Pattern => "PATTERN" | Ethernet => "ETHERNET" | Wlan => "WLAN"
  | Rs232 => "RS232" | System => "SYSTEM" | SelftestZ => "Z" | Bt => "BT"
  end.

(** The four code page families; each has its own [Display] (["437"],
    ["1252"], ["8859-1"], ...), which the wrapper below does not use. *)
Module CP7.
Inductive Codepage7Bit := Usa | British | German | French | Danish | Italian | Spanish
                         | Swedish | Swiss.
End CP7.

Module CP8.
Inductive Codepage8Bit := UnitedStates | Greek | Multilingual | Greek1 | Slavic | Cyrillic
                         | Turkish | Portuguese | Icelandic | Hebrew | CanadianFrench
                         | Arabic | Nordic | Russian | Greek2.
End CP8.

Module CPWin.
Inductive CodepageWindows := CentralEurope | Cyrillic | Latin1 | Greek | Turkish | Hebrew
                            | Arabic | Baltic | Vietnam | Japanese | ChineseSiplified
                            | Korean | ChineseTraditional | Utf8.
End CPWin.

Module CPIso.
Inductive CodepageIso := Latin1 | Latin2 | Latin3 | Baltic | Cyrillic | Arabic | Greek
                        | Hebrew | Turkish | Latin6 | Latin9.
End CPIso.

Inductive Codepage :=
| Codepage7Bit (c : CP7.Codepage7Bit)
| Codepage8Bit (c : CP8.Codepage8Bit)
| CodepageWindows (c : CPWin.CodepageWindows)
| CodepageIso (c : CPIso.CodepageIso).

(** [#[derive(Display)]] of strum on [enum Codepage]: a variant with no
    [serialize] attribute is displayed as its name, and the field it
    carries is not formatted. *)
Definition codepage_token (c : Codepage) : string :=
  match c with
  | Codepage7Bit _ => "Codepage7Bit"
  | Codepage8Bit _ => "Codepage8Bit"
  | CodepageWindows _ => "CodepageWindows"
  | CodepageIso _ => "CodepageIso"
  end.

End Vocab.

Import Vocab.

(** ** The device file and the [Printer] session *)

(** The device sink: the bytes it has received, and how many more bytes it
    accepts ([None]: every write succeeds). *)
Record File := mkFile { contents : string; budget : option nat }.

Record Printer := mkPrinter { file : File; resolution : Z }.

Inductive error :=
| ValidationError (msg : string)  (** [anyhow!(...)] of a failed check *)
| IoError                         (** [write_all] failed *)
| OpenError.                      (** [File::open] failed *)

(** What a method call ends in: a normal return, an [Err] of its [Result],
    or a panic. *)
Inductive outcome (A : Type) :=
| Ok (a : A)
| Err (e : error)
| Panic (msg : string).
Arguments Ok {A} a.
Arguments Err {A} e.
Arguments Panic {A} msg.

(** A method on [&mut Printer]. *)
Definition M (A : Type) := Printer -> outcome A * Printer.

Definition ret {A} (a : A) : M A := fun p => (Ok a, p).

(** [c?] followed by [k]: the chain stops at the first [Err] or panic. *)
Definition bind {A B} (c : M A) (k : A -> M B) : M B :=
  fun p =>
    match c p with
    | (Ok a, p') => k a p'
    | (Err e, p') => (Err e, p')
    | (Panic m, p') => (Panic m, p')
    end.

Notation "x <- c ;; k" := (bind c (fun x => k)) (at level 61, c at next level, right associativity).
Notation "c ;; k" := (bind c (fun _ => k)) (at level 61, right associativity).

Definition fail {A} (e : error) : M A := fun p => (Err e, p).
Definition anyhow {A} (msg : string) : M A := fail (ValidationError msg).
Definition get_resolution : M Z := fun p => (Ok (resolution p), p).

(** [self.file.write_all(bytes)?]: on a sink that accepts only [n] more
    bytes, a longer buffer is written up to the limit and the call fails. *)
Definition write_all (s : string) : M unit :=
  fun p =>
    let f := file p in
    match budget f with
    | None => (Ok tt, mkPrinter (mkFile (contents f ++ s) None) (resolution p))
    | Some n =>
        if (String.length s <=? n)%nat
        then (Ok tt, mkPrinter (mkFile (contents f ++ s) (Some (n - String.length s)%nat))
                               (resolution p))
        else (Err IoError, mkPrinter (mkFile (contents f ++ substring 0 n s) (Some 0%nat))
                                     (resolution p))
    end.

(** [std::time::Duration] and [Duration::as_millis]: whole seconds and the
    nanoseconds below one second; [as_millis] truncates. *)
Record Duration := mkDuration { secs : Z; nanos : Z }.

Definition as_millis (d : Duration) : Z := secs d * 1000 + nanos d / 1000000.

(** [Option::unwrap_or]. *)
Definition unwrap_or {A} (o : option A) (default : A) : A :=
  match o with
  | Some v => v
  | None => default
  end.

(** ** The methods of [impl Printer] *)

Module Cmd.

(** [lo..=hi] as a pattern, or [(lo..=hi).contains(&n)]. *)
Definition in_range (lo hi n : Z) : bool := Z.leb lo n && Z.leb n hi.

Definition size (f32_display : f32 -> string) (width : Size) (height : option Size) : M unit :=
  let cmd := match height with
             | Some height => "SIZE " ++ size_display f32_display width ++ ","
                                ++ size_display f32_display height ++ crlf
             | None => "SIZE " ++ size_display f32_display width ++ crlf
             end in
  write_all cmd;; ret tt.

Definition gap (f32_display : f32 -> string) (gap : Size) (gap_offset : option Size) : M unit :=
  let cmd := match gap_offset with
             | Some offset => "GAP " ++ size_display f32_display gap ++ ","
                                ++ size_display f32_display offset ++ crlf
             | None => "GAP " ++ size_display f32_display gap ++ crlf
             end in
  write_all cmd;; ret tt.

Definition density (density : Z) : M unit :=
  if in_range 1 15 density
  then write_all ("DENSITY " ++ dec density ++ crlf);; ret tt
  else anyhow "Density should be in range 0..15".

Definition country (c : Country) : M unit :=
  write_all ("COUNTRY " ++ pad0 3 (country_code c) ++ crlf);; ret tt.

Definition cls : M unit := write_all ("CLS" ++ crlf);; ret tt.

Definition cut : M unit := write_all ("CUT" ++ crlf);; ret tt.

Definition feed (feed : Size) : M unit :=
  r <- get_resolution;;
  let feed_dot := to_dots_raw feed r in
  if in_range 0 9999 feed_dot
  then write_all ("FEED " ++ dec feed_dot ++ crlf);; ret tt
  else anyhow ("feed length must be in range 0..9999 in dots, got " ++ dec feed_dot).

Definition backup (feed : Size) : M unit :=
  r <- get_resolution;;
  let feed_dot := to_dots_raw feed r in
  if in_range 0 9999 feed_dot
  then write_all ("BACKUP " ++ dec feed_dot ++ crlf);; ret tt
  else anyhow ("backup length must be in range 0..9999, got " ++ dec feed_dot).

Definition backfeed (feed : Size) : M unit :=
  r <- get_resolution;;
  let feed_dot := to_dots_raw feed r in
  if in_range 0 9999 feed_dot
  then write_all ("BACKFEED " ++ dec feed_dot ++ crlf);; ret tt
  else anyhow ("backfeed length must be in range 0..9999, got " ++ dec feed_dot).

Definition print (sets : Z) (copies : option Z) : M unit :=
  if in_range 1 999999999 sets then
    match copies with
    | Some copies =>
        if in_range 1 999999999 copies
        then write_all ("PRINT " ++ dec sets ++ "," ++ dec copies ++ crlf);; ret tt
        else anyhow ("Copies qty must be in range 1..999999999, got " ++ dec copies)
    | None => write_all ("PRINT " ++ dec sets ++ crlf);; ret tt
    end
  else anyhow ("Sets qty must be in range 1..999999999, got " ++ dec sets).

Definition sound (level interval : Z) : M unit :=
  if in_range 0 9 level && in_range 1 4095 interval
  then write_all ("SOUND " ++ dec level ++ "," ++ dec interval ++ crlf);; ret tt
  else anyhow "wrong sound parameters".

(** [unimplemented!()]: a panic with the message "not implemented". *)
Definition display : M unit := fun p => (Panic "not implemented", p).

Definition menu : M unit := fun p => (Panic "not implemented", p).

Definition aztec (x_start y_start : Size) (rotate : Rotation) (size ecp : Z)
    (flg menu_ : bool) (multi : Z) (reversed : bool) (content : string) : M unit :=
  if negb (in_range 1 20 size) then anyhow "Wrong size settings. min: 1, max: 20" else
  if Z.gtb ecp 300 then anyhow "Wrong error control parameter. Max: 300" else
  if negb (in_range 1 26 multi) then anyhow "Wrong number of symbols. min: 1, max: 26" else
  r <- get_resolution;;
  write_all ("AZTEC " ++ dec (to_dots_raw x_start r) ++ "," ++ dec (to_dots_raw y_start r)
             ++ "," ++ rotation_token rotate ++ "," ++ dec size ++ "," ++ dec ecp
             ++ "," ++ bool_u8 flg ++ "," ++ bool_u8 menu_ ++ "," ++ dec multi
             ++ "," ++ bool_u8 reversed ++ "," ++ dec (Z.of_nat (String.length content))
             ++ "," ++ content ++ crlf);;
  ret tt.

(** The ECC grade of [qrcode]. *)
Definition qr_ecc_grade (ecc_level : Z) : string :=
  if in_range 0 6 ecc_level then "L"
  else if in_range 7 14 ecc_level then "M"
  else if in_range 15 24 ecc_level then "Q"
  else "H".

Definition qrcode (x_upper_left y_upper_left : Size) (ecc_level cellwidth_dot : Z)
    (rotate : Rotation) (justification : option QrCodeJustification) (content : string)
    : M unit :=
  let ecc_level := qr_ecc_grade ecc_level in
  if negb (in_range 1 10 cellwidth_dot) then anyhow "Wrong cellwidth value. min: 1, max: 10" else
  r <- get_resolution;;
  let cmd := match justification with
             | Some justification =>
                 "QRCODE " ++ dec (to_dots_raw x_upper_left r) ++ ","
                 ++ dec (to_dots_raw y_upper_left r) ++ "," ++ ecc_level ++ ","
                 ++ dec cellwidth_dot ++ ",A," ++ rotation_token rotate ++ ","
                 ++ justification_token justification ++ "," ++ dq ++ content ++ dq ++ crlf
             | None =>
                 "QRCODE " ++ dec (to_dots_raw x_upper_left r) ++ ","
                 ++ dec (to_dots_raw y_upper_left r) ++ "," ++ ecc_level ++ ","
                 ++ dec cellwidth_dot ++ ",A," ++ rotation_token rotate ++ ","
                 ++ dq ++ content ++ dq ++ crlf
             end in
  write_all cmd;; ret tt.

Definition rss (x_upper_left y_upper_left : Size) (rss_type : RssType) (rotate : Rotation)
    (module_width : Size) (separator_height : Z) (seg_width lin_height : option Z)
    (content : string) : M unit :=
  r <- get_resolution;;
  let pix_mult := to_dots_raw module_width r in
  if negb (in_range 1 10 pix_mult) then anyhow "Wrong module resolution" else
  if negb (Z.eqb separator_height 1) && negb (Z.eqb separator_height 2)
  then anyhow "Wrong separator height" else
  let head := "RSS " ++ dec (to_dots_raw x_upper_left r) ++ ","
              ++ dec (to_dots_raw y_upper_left r) ++ ", " ++ dq ++ rss_token rss_type ++ dq
              ++ "," ++ rotation_token rotate ++ "," ++ dec pix_mult ++ ","
              ++ dec separator_height in
  let tail := ", " ++ dq ++ content ++ dq ++ crlf in
  match rss_type with
  | RssExp =>
      match seg_width with
      | Some seg_width =>
          if negb (in_range 2 22 seg_width)
          then anyhow "Wrong segment width. 2 to 22 accepted"
          else write_all (head ++ "," ++ dec seg_width ++ tail);; ret tt
      | None => anyhow "Missed segment width"
      end
  | Ucc128Cca | Ucc128Ccc =>
      match lin_height with
      | Some lin_height =>
          if negb (in_range 1 500 lin_height)
          then anyhow "Wrong line height. 1 to 500 accepted"
          else write_all (head ++ "," ++ dec lin_height ++ tail);; ret tt
      | None => anyhow "UCC/EAN-128 height missed"
      end
  | _ => write_all (head ++ tail);; ret tt
  end.

Definition text (x y : Size) (font : Font) (rotate : Rotation) (multiply_x multiply_y : Z)
    (alignment : option Alignment) (content : string) : M unit :=
  if negb (in_range 1 10 multiply_x) || negb (in_range 1 10 multiply_y)
  then anyhow "Wrong multiplication. Should be in range 1-10" else
  r <- get_resolution;;
  let cmd := match alignment with
             | Some alignment =>
                 "TEXT " ++ dec (to_dots_raw x r) ++ "," ++ dec (to_dots_raw y r) ++ ","
                 ++ dq ++ font_token font ++ dq ++ "," ++ rotation_token rotate ++ ","
                 ++ dec multiply_x ++ "," ++ dec multiply_y ++ ","
                 ++ alignment_token alignment ++ ", " ++ dq ++ content ++ dq ++ crlf
             | None =>
                 "TEXT " ++ dec (to_dots_raw x r) ++ "," ++ dec (to_dots_raw y r) ++ ","
                 ++ dq ++ font_token font ++ dq ++ "," ++ rotation_token rotate ++ ","
                 ++ dec multiply_x ++ "," ++ dec multiply_y ++ ", "
                 ++ dq ++ content ++ dq ++ crlf
             end in
  write_all cmd;; ret tt.

(** [block] builds its line in a mutable [String] with [push_str]. *)
Definition block (x y width height : Size) (font : Font) (rotate : Rotation)
    (multiply_x multiply_y : Z) (space : option Size) (alignment : option Alignment)
    (fit : option bool) (content : string) : M unit :=
  if negb (in_range 1 10 multiply_x) || negb (in_range 1 10 multiply_y)
  then anyhow "Wrong multiplication. Should be in range 1-10" else
  if Nat.ltb 4096 (String.length content) then anyhow "Overflow. Max content length 4096" else
  r <- get_resolution;;
  let cmd := "TEXT " ++ dec (to_dots_raw x r) ++ "," ++ dec (to_dots_raw y r) ++ ","
             ++ dec (to_dots_raw width r) ++ "," ++ dec (to_dots_raw height r) ++ ","
             ++ dq ++ font_token font ++ dq ++ "," ++ rotation_token rotate ++ ","
             ++ dec multiply_x ++ "," ++ dec multiply_y ++ "," in
  let cmd := match space with
             | Some space => cmd ++ dec (to_dots_raw space r) ++ ","
             | None => cmd
             end in
  let cmd := match alignment with
             | Some alignment => cmd ++ alignment_token alignment ++ ","
             | None => cmd
             end in
  let cmd := match fit with
             | Some fit => cmd ++ bool_u8 fit ++ ","
             | None => cmd
             end in
  let cmd := cmd ++ dq ++ content ++ dq ++ crlf in
  write_all cmd;; ret tt.

Definition gap_detect (calib : option (Size * Size)) : M unit :=
  r <- get_resolution;;
  let cmd := match calib with
             | Some (x, y) => "GAPDETECT " ++ dec (to_dots_raw x r) ++ ","
                                ++ dec (to_dots_raw y r) ++ crlf
             | None => "GAPDETECT" ++ crlf
             end in
  write_all cmd;; ret tt.

Definition bline_detect (calib : option (Size * Size)) : M unit :=
  r <- get_resolution;;
  let cmd := match calib with
             | Some (x, y) => "BLINEDETECT " ++ dec (to_dots_raw x r) ++ ","
                                ++ dec (to_dots_raw y r) ++ crlf
             | None => "BLINEDETECT" ++ crlf
             end in
  write_all cmd;; ret tt.

Definition auto_detect (calib : option (Size * Size)) : M unit :=
  r <- get_resolution;;
  let cmd := match calib with
             | Some (x, y) => "AUTODETECT " ++ dec (to_dots_raw x r) ++ ","
                                ++ dec (to_dots_raw y r) ++ crlf
             | None => "AUTODETECT" ++ crlf
             end in
  write_all cmd;; ret tt.

Definition bline (f32_display : f32 -> string) (black_line_height extra_feeding_len : Size)
    : M unit :=
  write_all ("BLINE " ++ size_display f32_display black_line_height ++ ","
             ++ size_display f32_display extra_feeding_len ++ crlf);;
  ret tt.

Definition offset (f32_display : f32 -> string) (offset : Size) : M unit :=
  write_all ("OFFSET " ++ size_display f32_display offset ++ crlf);; ret tt.

Definition speed (speed : string) : M unit :=
  write_all ("SPEED " ++ speed ++ crlf);; ret tt.

Definition direction (reversed_direction mirrored_image : bool) : M unit :=
  write_all ("DIRECTION " ++ bool_u8 reversed_direction ++ "," ++ bool_u8 mirrored_image
             ++ crlf);;
  ret tt.

Definition reference (x y : Size) : M unit :=
  r <- get_resolution;;
  write_all ("REFERENCE " ++ dec (to_dots_raw x r) ++ "," ++ dec (to_dots_raw y r) ++ crlf);;
  ret tt.

Definition shift (x : option Size) (y : Size) : M unit :=
  r <- get_resolution;;
  let cmd := match x with
             | Some x => "SHIFT " ++ dec (to_dots_raw x r) ++ "," ++ dec (to_dots_raw y r) ++ crlf
             | None => "SHIFT " ++ dec (to_dots_raw y r) ++ crlf
             end in
  write_all cmd;; ret tt.

Definition codepage (codepage : Codepage) : M unit :=
  write_all ("CODEPAGE " ++ codepage_token codepage ++ crlf);; ret tt.

Definition formfeed : M unit := write_all ("FORMFEED" ++ crlf);; ret tt.

Definition home : M unit := write_all ("HOME" ++ crlf);; ret tt.

Definition limit_feed (f32_display : f32 -> string) (n : Size)
    (minpaper_maxgap : option (Size * Size)) : M unit :=
  let cmd := match minpaper_maxgap with
             | Some (x, y) => "LIMITFEED " ++ size_display f32_display n ++ ","
                                ++ size_display f32_display x ++ ","
                                ++ size_display f32_display y ++ crlf
             | None => "LIMITFEED " ++ size_display f32_display n ++ crlf
             end in
  write_all cmd;; ret tt.

Definition selftest (test_kind : Selftest) : M unit :=
  write_all ("SELFTEST " ++ selftest_token test_kind ++ crlf);; ret tt.

Definition eoj : M unit := write_all ("EOJ" ++ crlf);; ret tt.

Definition delay (delay : Duration) : M unit :=
  write_all ("DELAY " ++ dec (as_millis delay) ++ crlf);; ret tt.

Definition initial_printer : M unit := write_all ("INITIALPRINTER" ++ crlf);; ret tt.

Definition bar (x_upper_left y_upper_left width height : Size) : M unit :=
  r <- get_resolution;;
  write_all ("BAR " ++ dec (to_dots_raw x_upper_left r) ++ ","
             ++ dec (to_dots_raw y_upper_left r) ++ "," ++ dec (to_dots_raw width r) ++ ","
             ++ dec (to_dots_raw height r) ++ crlf);;
  ret tt.

Definition barcode (x y : Size) (code_type : Barcode) (height : Size)
    (human_readable : HumanReadable) (rotate : Rotation) (narrow_wide : NarrowWide)
    (alignment : option Alignment) (content : string) : M unit :=
  r <- get_resolution;;
  let cmd := match alignment with
             | Some alignment =>
                 "BARCODE " ++ dec (to_dots_raw x r) ++ "," ++ dec (to_dots_raw y r) ++ ","
                 ++ dq ++ barcode_token code_type ++ dq ++ "," ++ dec (to_dots_raw height r)
                 ++ "," ++ human_readable_token human_readable ++ ","
                 ++ rotation_token rotate ++ "," ++ narrow_wide_token narrow_wide ++ ","
                 ++ alignment_token alignment ++ ", " ++ dq ++ content ++ dq ++ crlf
             | None =>
                 "BARCODE " ++ dec (to_dots_raw x r) ++ "," ++ dec (to_dots_raw y r) ++ ","
                 ++ dq ++ barcode_token code_type ++ dq ++ "," ++ dec (to_dots_raw height r)
                 ++ "," ++ human_readable_token human_readable ++ ","
                 ++ rotation_token rotate ++ "," ++ narrow_wide_token narrow_wide
                 ++ ", " ++ dq ++ content ++ dq ++ crlf
             end in
  write_all cmd;; ret tt.

Definition tlc39 (x y : Size) (rotate : Rotation)
    (height narrow wide cellwidth cellheight : option Size)
    (eci_number serial_number additional_data : string) : M unit :=
  r <- get_resolution;;
  let x := to_dots_raw x r in
  let y := to_dots_raw y r in
  let height := to_dots_raw (unwrap_or height (Dots 40)) r in
  let narrow := to_dots_raw (unwrap_or narrow (Dots 2)) r in
  let wide := to_dots_raw (unwrap_or wide (Dots 4)) r in
  let cellwidth := to_dots_raw (unwrap_or cellwidth (Dots 2)) r in
  let cellheight := to_dots_raw (unwrap_or cellheight (Dots 4)) r in
  write_all ("TLC39 " ++ dec x ++ "," ++ dec y ++ "," ++ rotation_token rotate ++ ","
             ++ dec height ++ "," ++ dec narrow ++ "," ++ dec wide ++ "," ++ dec cellwidth
             ++ "," ++ dec cellheight ++ ", " ++ dq ++ eci_number ++ "," ++ serial_number
             ++ "," ++ additional_data ++ dq ++ crlf);;
  ret tt.

(** [bitmap] writes its header, the raw bytes of [bitmap_data] and CRLF. *)
Definition bitmap (x y : Size) (width_bytes height_dots : Z) (mode : BitmapMode)
    (bitmap_data : string) : M unit :=
  r <- get_resolution;;
  let cmd := "BITMAP " ++ dec (to_dots_raw x r) ++ "," ++ dec (to_dots_raw y r) ++ ","
             ++ dec width_bytes ++ "," ++ dec height_dots ++ "," ++ bitmap_mode_token mode
             ++ "," in
  let cmd := cmd ++ bitmap_data in
  let cmd := cmd ++ crlf in
  write_all cmd;; ret tt.

Definition rectangle (x_start y_start x_end y_end thickness : Size) (radius : option Size)
    : M unit :=
  r <- get_resolution;;
  write_all ("BOX " ++ dec (to_dots_raw x_start r) ++ "," ++ dec (to_dots_raw y_start r)
             ++ "," ++ dec (to_dots_raw x_end r) ++ "," ++ dec (to_dots_raw y_end r)
             ++ "," ++ dec (to_dots_raw thickness r)
             ++ "," ++ dec (to_dots_raw (unwrap_or radius (Dots 0)) r) ++ crlf);;
  ret tt.

Definition circle (x_start y_start diameter thickness : Size) : M unit :=
  r <- get_resolution;;
  write_all ("CIRCLE " ++ dec (to_dots_raw x_start r) ++ "," ++ dec (to_dots_raw y_start r)
             ++ "," ++ dec (to_dots_raw diameter r) ++ "," ++ dec (to_dots_raw thickness r)
             ++ crlf);;
  ret tt.

Definition ellipse (x_upper_left y_upper_left width height thickness : Size) : M unit :=
  r <- get_resolution;;
  write_all ("ELLIPSE " ++ dec (to_dots_raw x_upper_left r) ++ ","
             ++ dec (to_dots_raw y_upper_left r) ++ "," ++ dec (to_dots_raw width r)
             ++ "," ++ dec (to_dots_raw height r) ++ "," ++ dec (to_dots_raw thickness r)
             ++ crlf);;
  ret tt.

Definition codablock (x y : Size) (rotate : Rotation) (row_height module_width : option Size)
    (content : string) : M unit :=
  r <- get_resolution;;
  let row_height := to_dots_raw (unwrap_or row_height (Dots 8)) r in
  let module_width := to_dots_raw (unwrap_or module_width (Dots 8)) r in
  write_all ("CODABLOCK " ++ dec (to_dots_raw x r) ++ "," ++ dec (to_dots_raw y r) ++ ","
             ++ rotation_token rotate ++ "," ++ dec row_height ++ "," ++ dec module_width
             ++ "," ++ dq ++ content ++ dq ++ crlf);;
  ret tt.

Definition data_matrix (x y width height : Size) (content : string) : M unit :=
  r <- get_resolution;;
  write_all ("DMATRIX " ++ dec (to_dots_raw x r) ++ "," ++ dec (to_dots_raw y r) ++ ","
             ++ dec (to_dots_raw width r) ++ "," ++ dec (to_dots_raw height r) ++ ", "
             ++ dq ++ content ++ dq ++ crlf);;
  ret tt.

Definition erase (x y width height : Size) : M unit :=
  r <- get_resolution;;
  write_all ("ERASE " ++ dec (to_dots_raw x r) ++ "," ++ dec (to_dots_raw y r) ++ ","
             ++ dec (to_dots_raw width r) ++ "," ++ dec (to_dots_raw height r) ++ crlf);;
  ret tt.

Definition pdf417 (x_start y_start width height : Size) (rotate : Rotation) (content : string)
    : M unit :=
  r <- get_resolution;;
  write_all ("PDF417 " ++ dec (to_dots_raw x_start r) ++ "," ++ dec (to_dots_raw y_start r)
             ++ "," ++ dec (to_dots_raw width r) ++ "," ++ dec (to_dots_raw height r) ++ ","
             ++ rotation_token rotate ++ "," ++ dq ++ content ++ dq ++ crlf);;
  ret tt.

Definition mpdf417 (x_start y_start : Size) (rotate : Rotation)
    (module_width module_height : option Size) (col_num : option Z) (content : string)
    : M unit :=
  let col_num := match col_num with
                 | Some x => if in_range 1 4 x then x else 0
                 | None => 0
                 end in
  r <- get_resolution;;
  let module_width := to_dots_raw (unwrap_or module_width (Dots 1)) r in
  let module_height := to_dots_raw (unwrap_or module_height (Dots 10)) r in
  write_all ("MPDF417 " ++ dec (to_dots_raw x_start r) ++ "," ++ dec (to_dots_raw y_start r)
             ++ "," ++ rotation_token rotate ++ "," ++ dec module_width ++ ","
             ++ dec module_height ++ "," ++ dec col_num ++ ", " ++ dq ++ content ++ dq
             ++ crlf);;
  ret tt.

Definition reverse (x_start y_start width height : Size) : M unit :=
  r <- get_resolution;;
  write_all ("REVERSE " ++ dec (to_dots_raw x_start r) ++ "," ++ dec (to_dots_raw y_start r)
             ++ "," ++ dec (to_dots_raw width r) ++ "," ++ dec (to_dots_raw height r)
             ++ crlf);;
  ret tt.

Definition diagonal (x_start y_start x_end y_end thickness : Size) : M unit :=
  r <- get_resolution;;
  write_all ("DIAGONAL " ++ dec (to_dots_raw x_start r) ++ "," ++ dec (to_dots_raw y_start r)
             ++ "," ++ dec (to_dots_raw x_end r) ++ "," ++ dec (to_dots_raw y_end r)
             ++ "," ++ dec (to_dots_raw thickness r) ++ crlf);;
  ret tt.

End Cmd.

Record Tape := mkTape {
  width : Size;
  height : option Size;
  gap : Size;
  gap_offset : option Size
}.

(** [Printer::with_resolution]: open the device ([open_dev path] is the
    file system's answer to [File::options().read(true).write(true).open]),
    then [size(..)?.gap(..)?.cls()?]. *)
Definition with_resolution (open_dev : string -> option File) (f32_display : f32 -> string)
    (path : string) (tape : Tape) (dpi : Z) : outcome Printer :=
  match open_dev path with
  | None => Err OpenError
  | Some file =>
      let printer := mkPrinter file dpi in
      match (Cmd.size f32_display (width tape) (height tape);;
             Cmd.gap f32_display (gap tape) (gap_offset tape);;
             Cmd.cls) printer with
      | (Ok _, printer) => Ok printer
      | (Err e, _) => Err e
      | (Panic m, _) => Panic m
      end
  end.

(** The session after a successful write of [s] on a sink that accepts
    every write. *)
Definition sink_after (p : Printer) (s : string) : Printer :=
  mkPrinter (mkFile (contents (file p) ++ s) (budget (file p))) (resolution p).

(** Spec-side forms used to state the claims. *)

(** The decimal digit [k] ([0 <= k <= 9]) as an ASCII character. *)
Definition digit_char (k : Z) : ascii := ascii_of_nat (48 + Z.to_nat k).

(** Exactly three decimal digits of [n], most significant first. *)
Definition three_digits (n : Z) : string :=
  String (digit_char (n / 100 mod 10))
    (String (digit_char (n / 10 mod 10)) (String (digit_char (n mod 10)) EmptyString)).

(** An optional command field: the field followed by a comma, or nothing. *)
Definition opt_field {A} (show : A -> string) (o : option A) : string :=
  match o with
  | Some v => show v ++ ","
  | None => EmptyString
  end.

(** The [SIZE] and [GAP] lines of a tape, as the protocol lays them out:
    [SIZE width[,height]] and [GAP gap[,offset]]. *)
Definition size_line (f32_display : f32 -> string) (tape : Tape) : string :=
  "SIZE " ++ size_display f32_display (width tape)
  ++ match height tape with
     | Some h => "," ++ size_display f32_display h
     | None => EmptyString
     end ++ crlf.

Definition gap_line (f32_display : f32 -> string) (tape : Tape) : string :=
  "GAP " ++ size_display f32_display (gap tape)
  ++ match gap_offset tape with
     | Some o => "," ++ size_display f32_display o
     | None => EmptyString
     end ++ crlf.

(** [x < 0] in IEEE comparison: a negative finite value or [-inf]. *)
Definition f32_negative (x : f32) : Prop := SFltb x (S754_zero false) = true.

(** The real value of [v] is greater than the integer [n >= 0]. *)
Definition f32_gt_Z (v : f32) (n : Z) : Prop :=
  match v with
  | S754_infinity false => True
  | S754_finite false m e =>
      if Z.leb 0 e then Zpos m * 2 ^ e > n else Zpos m > n * 2 ^ (- e)
  | _ => False
  end.

(** [v] carries the sign [s], or is NaN. *)
Definition sign_or_nan (s : bool) (v : f32) : Prop :=
  match v with
  | S754_zero s' | S754_infinity s' | S754_finite s' _ _ => s' = s
  | S754_nan => True
  end.

(** A command whose outcome and written bytes do not depend on the
    session's resolution. *)
Definition resolution_blind (c : M unit) : Prop :=
  forall f r1 r2,
    fst (c (mkPrinter f r1)) = fst (c (mkPrinter f r2)) /\
    file (snd (c (mkPrinter f r1))) = file (snd (c (mkPrinter f r2))).

(** A length replaced by its dot count at resolution [r]. *)
Definition as_dots (r : Z) (s : Size) : Size := Dots (to_dots_raw s r).

(** The three lines [with_resolution] writes on a tape. *)
Definition setup_lines (f32_display : f32 -> string) (tape : Tape) : string :=
  size_line f32_display tape ++ gap_line f32_display tape ++ ("CLS" ++ crlf).

(** * Lemmas *)

(** ** Exact [f32] arithmetic on small integers *)

Module F32Facts.

Lemma digits2_pos_size p : digits2_pos p = Pos.size p.
Proof. induction p; simpl; congruence. Qed.

Lemma size_iter_xO p k : Pos.size (Pos.iter xO p k) = (Pos.size p + k)%positive.
Proof.
  induction k using Pos.peano_ind.
  - simpl. lia.
  - rewrite Pos.iter_succ. simpl. rewrite IHk. lia.
Qed.

Lemma iter_xO_mul p k : Zpos (Pos.iter xO p k) = Zpos p * 2 ^ Zpos k.
Proof.
  induction k using Pos.peano_ind.
  - simpl. lia.
  - rewrite Pos.iter_succ, Pos2Z.inj_xO, IHk, Pos2Z.inj_succ, Z.pow_succ_r; lia.
Qed.

Lemma size_lt p n : Zpos p < 2 ^ Zpos n -> (Pos.size p <= n)%positive.
Proof.
  intros H. destruct (Z.le_gt_cases (Zpos (Pos.size p)) (Zpos n)) as [|Hc]; [lia|].
  exfalso. pose proof (Pos.size_le p) as Hle.
  assert (Z.pos (2 ^ Pos.size p) <= Z.pos p~0) as H2 by exact Hle.
  rewrite Pos2Z.inj_pow, Pos2Z.inj_xO in H2.
  assert (2 ^ (Zpos n + 1) <= 2 ^ Z.pos (Pos.size p)) by (apply Z.pow_le_mono_r; lia).
  rewrite Z.pow_add_r in H0 by lia. lia.
Qed.

(** A normalised mantissa at an exponent in range is not rounded. *)
Lemma round_aux_exact s m e :
  digits2_pos m = 24%positive -> -149 <= e <= 104 ->
  binary_round_aux prec emax s (Zpos m) e loc_Exact = S754_finite s m e.
Proof.
  intros Hm He. unfold binary_round_aux, shr_fexp, Zdigits2.
  rewrite Hm.
  replace (fexp prec emax (Z.pos 24 + e) - e) with 0
    by (unfold fexp, emin, prec, emax; lia).
  cbn [shr shr_record_of_loc shr_m loc_of_shr_record round_nearest_even].
  rewrite Hm.
  replace (fexp prec emax (Z.pos 24 + e) - e) with 0
    by (unfold fexp, emin, prec, emax; lia).
  cbn [shr shr_record_of_loc shr_m].
  replace ((e <=? emax - prec)%Z) with true by (symmetry; apply Z.leb_le; unfold emax, prec; lia).
  reflexivity.
Qed.

(** Every integer below [2^24] is exactly representable. *)
Lemma of_u32_exact p :
  Zpos p < 2 ^ 24 ->
  exists m, of_u32 (Zpos p) = S754_finite false m (Zpos (Pos.size p) - 24)
    /\ Zpos m = Zpos p * 2 ^ (24 - Zpos (Pos.size p)) /\ digits2_pos m = 24%positive.
Proof.
  intros Hp. pose proof (size_lt p 24 Hp) as Hs.
  unfold of_u32, binary_normalize, binary_round, shl_align.
  rewrite digits2_pos_size.
  replace (fexp prec emax (Z.pos (Pos.size p) + 0)) with (Zpos (Pos.size p) - 24)
    by (unfold fexp, emin, prec, emax; lia).
  rewrite Z.sub_0_r.
  destruct (Pos.lt_total (Pos.size p) 24) as [Hlt | [Heq | Hgt]]; [| |lia].
  - replace (Z.pos (Pos.size p) - 24) with (Zneg (24 - Pos.size p)) by lia.
    exists (Pos.iter xO p (24 - Pos.size p)).
    rewrite round_aux_exact.
    + split; [reflexivity|]. rewrite iter_xO_mul. split.
      { rewrite Pos2Z.inj_sub by lia. reflexivity. }
      rewrite digits2_pos_size, size_iter_xO. lia.
    + rewrite digits2_pos_size, size_iter_xO. lia.
    + lia.
  - rewrite Heq. exists p. simpl. rewrite round_aux_exact.
    + split; [reflexivity|]. split; [lia|]. rewrite digits2_pos_size; assumption.
    + rewrite digits2_pos_size; assumption.
    + lia.
Qed.

(** [1.0 * x = x] on normalised values. *)
Lemma mul_one_exact m e :
  digits2_pos m = 24%positive -> -149 <= e <= 104 ->
  mul (of_u32 1) (S754_finite false m e) = S754_finite false m e.
Proof.
  intros Hm He.
  change (of_u32 1) with (S754_finite false 8388608 (-23)).
  unfold mul, SFmul, binary_round_aux, shr_fexp, Zdigits2. cbn [xorb Pos.mul digits2_pos].
  rewrite Hm. cbn [Pos.succ].
  replace (fexp prec emax (Z.pos 47 + (-23 + e)) - (-23 + e)) with 23
    by (unfold fexp, emin, prec, emax; lia).
  cbn [shr shr_record_of_loc iter_pos shr_1 orb shr_m loc_of_shr_record round_nearest_even].
  replace (-23 + e + 23) with e by lia.
  rewrite Hm.
  replace (fexp prec emax (Z.pos 24 + e) - e) with 0
    by (unfold fexp, emin, prec, emax; lia).
  cbn [shr shr_record_of_loc shr_m].
  replace ((e <=? emax - prec)%Z) with true by (symmetry; apply Z.leb_le; unfold emax, prec; lia).
  reflexivity.
Qed.

Lemma as_u32_one_times r :
  0 < r <= 2 ^ 24 -> as_u32 (mul (of_u32 1) (of_u32 r)) = r.
Proof.
  intros Hr.
  destruct (Z.eq_dec r (2 ^ 24)) as [->|Hne]; [vm_compute; reflexivity|].
  destruct r as [|p|p]; [lia| |lia].
  destruct (of_u32_exact p ltac:(lia)) as [m [Hof [Hm Hd]]].
  pose proof (size_lt p 24 ltac:(lia)) as Hs.
  rewrite Hof, mul_one_exact by (assumption || lia).
  unfold as_u32.
  replace (Z.pos (Pos.size p) - 24) with (- (24 - Z.pos (Pos.size p))) by lia.
  rewrite Z.shiftl_opp_r, Z.shiftr_div_pow2 by lia.
  rewrite Hm, Z.div_mul by (apply Z.pow_nonzero; lia).
  unfold u32_max. lia.
Qed.

Lemma round_aux_sign s m e l : sign_or_nan s (binary_round_aux prec emax s m e l).
Proof.
  unfold binary_round_aux.
  destruct (shr_fexp prec emax m e l) as [mrs e'].
  destruct (shr_fexp prec emax _ e' loc_Exact) as [mrs' e''].
  destruct (shr_m mrs') as [|q|q]; simpl; try reflexivity; try exact I.
  match goal with |- context [if ?b then _ else _] => destruct b end; simpl; reflexivity.
Qed.

Lemma of_u32_sign r : 0 <= r -> sign_or_nan false (of_u32 r).
Proof.
  intros Hr. destruct r as [|q|q]; [reflexivity| |lia].
  unfold of_u32, binary_normalize, binary_round.
  destruct (shl_align q 0 _) as [mz ez]. apply round_aux_sign.
Qed.

Lemma mul_sign_neg a b :
  sign_or_nan true a -> sign_or_nan false b -> sign_or_nan true (mul a b).
Proof.
  intros Ha Hb. unfold mul, SFmul.
  destruct a as [sa|sa| |sa ma ea], b as [sb|sb| |sb mb eb]; simpl in *;
    subst; try exact I; try reflexivity; apply round_aux_sign.
Qed.

Lemma div_sign_neg a b :
  sign_or_nan true a -> sign_or_nan false b -> sign_or_nan true (div a b).
Proof.
  intros Ha Hb. unfold div, SFdiv.
  destruct a as [sa|sa| |sa ma ea], b as [sb|sb| |sb mb eb]; simpl in *;
    subst; try exact I; try reflexivity.
  destruct (SFdiv_core_binary prec emax _ _ _ _) as [[mz ez] lz]. apply round_aux_sign.
Qed.

Lemma as_u32_neg v : sign_or_nan true v -> as_u32 v = 0.
Proof. destruct v as [s|s| |s m e]; simpl; intros H; subst; reflexivity. Qed.

Lemma negative_sign x : f32_negative x -> sign_or_nan true x.
Proof.
  unfold f32_negative, SFltb, SFcompare.
  destruct x as [[]|[]| |[] m e]; simpl; (discriminate || reflexivity).
Qed.

Lemma as_u32_saturates v : f32_gt_Z v u32_max -> as_u32 v = u32_max.
Proof.
  destruct v as [s|[]| |[] m e]; cbn [f32_gt_Z as_u32]; intros H;
    try contradiction; try reflexivity.
  destruct (Z.leb 0 e) eqn:He; [apply Z.leb_le in He | apply Z.leb_gt in He].
  - assert (H' : Zpos m * 2 ^ e > u32_max) by exact H.
    rewrite Z.shiftl_mul_pow2 by assumption. lia.
  - assert (H' : Zpos m > u32_max * 2 ^ (- e)) by exact H.
    replace e with (- (- e)) by lia.
    rewrite Z.shiftl_opp_r, Z.shiftr_div_pow2 by lia.
    assert (u32_max <= Zpos m / 2 ^ (- e)).
    { apply Z.div_le_lower_bound; [apply Z.pow_pos_nonneg; lia|]. lia. }
    lia.
Qed.

Lemma as_u32_bounds v : 0 <= as_u32 v <= u32_max.
Proof.
  destruct v as [s|[]| |[] m e]; cbn [as_u32]; unfold u32_max; try lia.
  assert (0 <= Z.shiftl (Zpos m) e) by (apply Z.shiftl_nonneg; lia).
  lia.
Qed.

End F32Facts.

(** ** Commands *)

Module CmdFacts.

Lemma in_range_spec lo hi n : Cmd.in_range lo hi n = true <-> lo <= n <= hi.
Proof. unfold Cmd.in_range. rewrite andb_true_iff, !Z.leb_le. tauto. Qed.

Lemma write_all_ok p s :
  budget (file p) = None -> write_all s p = (Ok tt, sink_after p s).
Proof. intros H. unfold write_all, sink_after. rewrite H. reflexivity. Qed.

Lemma str_app_assoc (s t u : string) : (s ++ t) ++ u = s ++ (t ++ u).
Proof. induction s as [|a s IH]; simpl; [reflexivity|]. rewrite IH. reflexivity. Qed.

Lemma write_ret_ok p s :
  budget (file p) = None -> (write_all s;; ret tt) p = (Ok tt, sink_after p s).
Proof. intros H. unfold bind. rewrite write_all_ok by assumption. reflexivity. Qed.

Lemma write_ret_bind {B} p s (k : unit -> M B) :
  budget (file p) = None -> bind (write_all s;; ret tt) k p = k tt (sink_after p s).
Proof. intros H. unfold bind at 1. rewrite write_ret_ok by assumption. reflexivity. Qed.

End CmdFacts.

(** Case analysis on every range check of a goal; each branch is closed by
    computation or by a contradiction between a check and the hypotheses. *)
Ltac split_checks :=
  repeat match goal with
    | |- context [Cmd.in_range ?a ?b ?c] =>
        let E := fresh "E" in destruct (Cmd.in_range a b c) eqn:E
    | |- context [Z.eqb ?a ?b] =>
        let E := fresh "E" in destruct (Z.eqb a b) eqn:E
    | |- context [Z.gtb ?a ?b] =>
        let E := fresh "E" in destruct (Z.gtb a b) eqn:E
    | |- context [Nat.ltb ?a ?b] =>
        let E := fresh "E" in destruct (Nat.ltb a b) eqn:E
    end;
  repeat match goal with
    | H : Cmd.in_range _ _ _ = true |- _ => apply CmdFacts.in_range_spec in H
    | H : Cmd.in_range _ _ _ = false |- _ =>
        apply not_true_iff_false in H; rewrite CmdFacts.in_range_spec in H
    | H : Z.eqb _ _ = true |- _ => apply Z.eqb_eq in H
    | H : Z.eqb _ _ = false |- _ => apply Z.eqb_neq in H
    | H : Z.gtb _ _ = true |- _ => apply Z.gtb_lt in H
    | H : Z.gtb _ _ = false |- _ => rewrite Z.gtb_ltb, Z.ltb_ge in H
    | H : Nat.ltb _ _ = true |- _ => apply Nat.ltb_lt in H
    | H : Nat.ltb _ _ = false |- _ => apply Nat.ltb_ge in H
    end.

(** * Claims *)

(** ** C1 *)

(** C1 (claim as stated, refuted): the claim says [to_dots(Imperial(1.0), r) = r]
    for every resolution [r > 0]; at [r = 16777217 = 2^24 + 1], which is a
    valid [u32], [r as f32] rounds to [2^24] and the result is [16777216]. *)
Lemma C1_counterexample :
  to_dots_raw (Imperial (lit 10 10)) 16777217 = 16777216 /\
  to_dots_raw (Imperial (lit 10 10)) 16777217 <> 16777217.
Proof. vm_compute. split; [reflexivity | discriminate]. Qed.

(** C1 (amended): for every resolution [0 < r <= 2^24], [Metric(25.4)] and
    [Imperial(1.0)] convert to exactly [r] dots; [Dots(x)] is returned
    unchanged; and [Metric(0.1)] at 300 dpi gives [floor(0.1/25.4*300) = 1]. *)
Theorem to_dots_raw_unit_lengths (r : Z) (Hr : 0 < r <= 2 ^ 24) :
  to_dots_raw (Metric (lit 254 10)) r = r /\
  to_dots_raw (Imperial (lit 10 10)) r = r /\
  (forall x, to_dots_raw (Dots x) r = x) /\
  to_dots_raw (Metric (lit 1 10)) 300 = 3000 / 2540.
Proof.
  split; [|split; [|split]].
  - unfold to_dots_raw.
    replace (div (lit 254 10) mm_per_inch) with (of_u32 1) by (vm_compute; reflexivity).
    apply F32Facts.as_u32_one_times; assumption.
  - unfold to_dots_raw.
    replace (lit 10 10) with (of_u32 1) by (vm_compute; reflexivity).
    apply F32Facts.as_u32_one_times; assumption.
  - reflexivity.
  - vm_compute. reflexivity.
Qed.

Lemma to_dots_raw_unit_lengths_witness :
  (0 < 300 <= 2 ^ 24) /\ to_dots_raw (Metric (lit 254 10)) 300 = 300.
Proof.
  split; [lia|].
  apply (to_dots_raw_unit_lengths 300). lia.
Defined.

(** ** C2 *)

(** A call that ends in a validation error and leaves the session, its sink
    included, exactly as it was. *)
Definition rejects (c : M unit) (p : Printer) : Prop :=
  exists msg, c p = (Err (ValidationError msg), p).

(** C2: every command with a documented parameter constraint (density, print
    sets/copies, sound, feed/backup/backfeed, text and block multipliers,
    block content length, QR cell width, Aztec size/error correction/symbol
    count, RSS module width, separator height, segment width and linear
    height) fails with a validation error when the constraint is violated,
    and the session, including everything its sink has received, is left
    unchanged: no byte of the call is written. *)
Theorem validation_failure_writes_nothing (p : Printer) :
  (forall d, ~ (1 <= d <= 15) -> rejects (Cmd.density d) p) /\
  (forall sets copies,
      ~ (1 <= sets <= 999999999) \/ (exists c, copies = Some c /\ ~ (1 <= c <= 999999999)) ->
      rejects (Cmd.print sets copies) p) /\
  (forall level interval, ~ (0 <= level <= 9) \/ ~ (1 <= interval <= 4095) ->
      rejects (Cmd.sound level interval) p) /\
  (forall f, ~ (0 <= to_dots_raw f (resolution p) <= 9999) ->
      rejects (Cmd.feed f) p /\ rejects (Cmd.backup f) p /\ rejects (Cmd.backfeed f) p) /\
  (forall x y font rotate mx my alignment content,
      ~ (1 <= mx <= 10) \/ ~ (1 <= my <= 10) ->
      rejects (Cmd.text x y font rotate mx my alignment content) p) /\
  (forall x y w h font rotate mx my space alignment fit content,
      ~ (1 <= mx <= 10) \/ ~ (1 <= my <= 10) \/ (4096 < String.length content)%nat ->
      rejects (Cmd.block x y w h font rotate mx my space alignment fit content) p) /\
  (forall x y ecc cw rotate just content, ~ (1 <= cw <= 10) ->
      rejects (Cmd.qrcode x y ecc cw rotate just content) p) /\
  (forall x y rotate size ecp flg menu_ multi reversed content,
      ~ (1 <= size <= 20) \/ 300 < ecp \/ ~ (1 <= multi <= 26) ->
      rejects (Cmd.aztec x y rotate size ecp flg menu_ multi reversed content) p) /\
  (forall x y t rotate mw sep seg lin content,
      ~ (1 <= to_dots_raw mw (resolution p) <= 10) \/ (sep <> 1 /\ sep <> 2) \/
      (t = RssExp /\ exists w, seg = Some w /\ ~ (2 <= w <= 22)) \/
      ((t = Ucc128Cca \/ t = Ucc128Ccc) /\ exists h, lin = Some h /\ ~ (1 <= h <= 500)) ->
      rejects (Cmd.rss x y t rotate mw sep seg lin content) p).
Proof.
  unfold rejects.
  repeat split; intros.
  - unfold Cmd.density. split_checks; [lia|]. eexists; reflexivity.
  - unfold Cmd.print. split_checks.
    + destruct copies as [c|]; [|destruct H as [H|[c [Hc _]]]; [lia|discriminate]].
      split_checks.
      * destruct H as [H|[c' [Hc Hr]]]; [lia|]. injection Hc as <-. lia.
      * eexists; reflexivity.
    + eexists; reflexivity.
  - unfold Cmd.sound. split_checks; simpl; try (eexists; reflexivity). lia.
  - unfold Cmd.feed, bind, get_resolution. split_checks; [lia|]. eexists; reflexivity.
  - unfold Cmd.backup, bind, get_resolution. split_checks; [lia|]. eexists; reflexivity.
  - unfold Cmd.backfeed, bind, get_resolution. split_checks; [lia|]. eexists; reflexivity.
  - unfold Cmd.text. split_checks; simpl; try (eexists; reflexivity). lia.
  - unfold Cmd.block. split_checks; simpl; try (eexists; reflexivity); lia.
  - unfold Cmd.qrcode. split_checks; simpl; [lia|]. eexists; reflexivity.
  - unfold Cmd.aztec. split_checks; simpl; try (eexists; reflexivity); lia.
  - unfold Cmd.rss, bind, get_resolution. cbn beta iota.
    split_checks; simpl; try (eexists; reflexivity).
    all: destruct H as [H|[H|[[-> [w [-> Hw]]]|[Ht [h [-> Hh]]]]]]; try lia.
    all: try (split_checks; simpl; try (eexists; reflexivity); lia).
    all: destruct Ht as [->| ->]; split_checks; simpl; try (eexists; reflexivity); lia.
Qed.

Lemma validation_failure_writes_nothing_witness :
  rejects (Cmd.density 99) (mkPrinter (mkFile EmptyString None) 300).
Proof.
  apply (validation_failure_writes_nothing (mkPrinter (mkFile EmptyString None) 300)). lia.
Defined.

(** ** C3 *)

(** C3: with a sink that accepts every write, [print(sets, copies)] succeeds
    exactly when [1 <= sets <= 999999999] and a present [copies] is in the
    same range, and fails with a validation error (writing nothing)
    otherwise; with [copies = None] it writes exactly ["PRINT {sets}\r\n"].
    In particular [print(0, None)] and [print(1000000000, None)] fail and
    [print(1, None)] writes ["PRINT 1\r\n"]. *)
Theorem print_sets_copies (sets : Z) (copies : option Z) (p : Printer)
    (Hw : budget (file p) = None) :
  ((exists p', Cmd.print sets copies p = (Ok tt, p')) <->
     (1 <= sets <= 999999999 /\ forall c, copies = Some c -> 1 <= c <= 999999999)) /\
  (~ (1 <= sets <= 999999999 /\ forall c, copies = Some c -> 1 <= c <= 999999999) ->
     rejects (Cmd.print sets copies) p) /\
  (1 <= sets <= 999999999 ->
     Cmd.print sets None p = (Ok tt, sink_after p ("PRINT " ++ dec sets ++ crlf))) /\
  rejects (Cmd.print 0 None) p /\
  rejects (Cmd.print 1000000000 None) p /\
  Cmd.print 1 None p = (Ok tt, sink_after p ("PRINT 1" ++ crlf)).
Proof.
  unfold rejects.
  assert (Hok : forall s, (write_all s;; ret tt) p = (Ok tt, sink_after p s)).
  { intros s. unfold bind. rewrite CmdFacts.write_all_ok by assumption. reflexivity. }
  split; [|split; [|split; [|split; [|split]]]].
  - unfold Cmd.print. split.
    + intros [p' Hp']. revert Hp'. split_checks; intros Hp'.
      * destruct copies as [c|].
        -- revert Hp'. split_checks; intros Hp'; [|discriminate].
           split; [lia|]. intros c' Hc. injection Hc as <-. lia.
        -- split; [lia|]. discriminate.
      * discriminate.
    + intros [Hs Hc]. split_checks; [|lia].
      destruct copies as [c|].
      * specialize (Hc c eq_refl). split_checks; [|lia]. eexists. apply Hok.
      * eexists. apply Hok.
  - intros Hn. unfold Cmd.print. split_checks.
    + destruct copies as [c|].
      * split_checks; [|eexists; reflexivity].
        exfalso. apply Hn. split; [lia|]. intros c' Hc. injection Hc as <-. lia.
      * exfalso. apply Hn. split; [lia|]. discriminate.
    + eexists; reflexivity.
  - intros Hs. unfold Cmd.print. split_checks; [|lia]. apply Hok.
  - eexists; reflexivity.
  - eexists; reflexivity.
  - apply Hok.
Qed.

Lemma print_sets_copies_witness :
  Cmd.print 1 None (mkPrinter (mkFile EmptyString None) 300)
  = (Ok tt, mkPrinter (mkFile ("PRINT 1" ++ crlf) None) 300).
Proof.
  apply (print_sets_copies 1 None (mkPrinter (mkFile EmptyString None) 300)).
  reflexivity.
Defined.

(** ** C4 *)

(** C4: the ECC input is mapped to [L] on 0-6, [M] on 7-14, [Q] on 15-24
    and [H] otherwise; with a sink that accepts every write, [qrcode]
    succeeds for every ECC value when the cell width is in 1-10, writing
    [QRCODE x,y,grade,cellwidth,A,rotation,[justification,]"content"], and
    fails with a validation error, writing nothing, otherwise. *)
Theorem qrcode_ecc_cellwidth x y (ecc cw : Z) rotate just content (p : Printer)
    (Hw : budget (file p) = None) :
  (0 <= ecc <= 6 -> Cmd.qr_ecc_grade ecc = "L") /\
  (7 <= ecc <= 14 -> Cmd.qr_ecc_grade ecc = "M") /\
  (15 <= ecc <= 24 -> Cmd.qr_ecc_grade ecc = "Q") /\
  (~ (0 <= ecc <= 24) -> Cmd.qr_ecc_grade ecc = "H") /\
  (1 <= cw <= 10 ->
     Cmd.qrcode x y ecc cw rotate just content p =
     (Ok tt, sink_after p ("QRCODE " ++ dec (to_dots_raw x (resolution p)) ++ ","
                           ++ dec (to_dots_raw y (resolution p)) ++ ","
                           ++ Cmd.qr_ecc_grade ecc ++ "," ++ dec cw ++ ",A,"
                           ++ rotation_token rotate ++ ","
                           ++ opt_field justification_token just
                           ++ dq ++ content ++ dq ++ crlf))) /\
  (~ (1 <= cw <= 10) -> rejects (Cmd.qrcode x y ecc cw rotate just content) p).
Proof.
  split; [|split; [|split; [|split; [|split]]]]; intros H; unfold Cmd.qr_ecc_grade.
  1-4: split_checks; solve [reflexivity | lia].
  - unfold Cmd.qrcode, bind, get_resolution. fold (Cmd.qr_ecc_grade ecc).
    split_checks; [|lia]. simpl.
    rewrite CmdFacts.write_all_ok by assumption.
    destruct just; simpl; repeat rewrite CmdFacts.str_app_assoc; reflexivity.
  - unfold rejects, Cmd.qrcode. split_checks; [lia|]. eexists; reflexivity.
Qed.

Lemma qrcode_ecc_cellwidth_witness :
  Cmd.qrcode (Dots 10) (Dots 20) 35 6 NoRotation None "AB"
    (mkPrinter (mkFile EmptyString None) 300) =
  (Ok tt, mkPrinter (mkFile ("QRCODE 10,20,H,6,A,0," ++ dq ++ "AB" ++ dq ++ crlf) None) 300).
Proof.
  apply (qrcode_ecc_cellwidth (Dots 10) (Dots 20) 35 6 NoRotation None "AB"
           (mkPrinter (mkFile EmptyString None) 300) eq_refl).
  lia.
Defined.

(** ** C5 *)

(** C5: for every [Country] [c], [country(c)] writes ["COUNTRY "], then the
    numeric code of [c] as exactly three decimal digits (zero-padded), then
    CRLF; every code is below 1000; [country(German)] writes
    ["COUNTRY 049\r\n"]. *)
Theorem country_zero_padded (c : Country) (p : Printer) (Hw : budget (file p) = None) :
  0 <= country_code c < 1000 /\
  Cmd.country c p = (Ok tt, sink_after p ("COUNTRY " ++ three_digits (country_code c) ++ crlf)) /\
  Cmd.country German p = (Ok tt, sink_after p ("COUNTRY 049" ++ crlf)).
Proof.
  assert (Hok : forall s, (write_all s;; ret tt) p = (Ok tt, sink_after p s)).
  { intros s. unfold bind. rewrite CmdFacts.write_all_ok by assumption. reflexivity. }
  split; [|split].
  - destruct c; simpl; lia.
  - unfold Cmd.country. rewrite Hok. destruct c; reflexivity.
  - apply Hok.
Qed.

Lemma country_zero_padded_witness :
  Cmd.country Finnish (mkPrinter (mkFile EmptyString None) 203) =
  (Ok tt, mkPrinter (mkFile ("COUNTRY 358" ++ crlf) None) 203).
Proof.
  apply (country_zero_padded Finnish (mkPrinter (mkFile EmptyString None) 203)).
  reflexivity.
Defined.

(** ** C6 *)

(** C6: on a session whose sink accepts every write, the chain
    [cls()?.density(99)?.cut()?] writes ["CLS\r\n"], stops at [density]
    with a validation error and never writes ["CUT\r\n"]: the sink has
    received exactly ["CLS\r\n"] more than before. *)
Theorem chain_short_circuit (p : Printer) (Hw : budget (file p) = None) :
  exists msg, (Cmd.cls;; Cmd.density 99;; Cmd.cut) p =
              (Err (ValidationError msg), sink_after p ("CLS" ++ crlf)).
Proof.
  unfold Cmd.cls, bind at 1. unfold bind at 1.
  rewrite CmdFacts.write_all_ok by assumption. simpl.
  eexists. reflexivity.
Qed.

Lemma chain_short_circuit_witness :
  exists msg, (Cmd.cls;; Cmd.density 99;; Cmd.cut) (mkPrinter (mkFile EmptyString None) 300) =
              (Err (ValidationError msg), mkPrinter (mkFile ("CLS" ++ crlf) None) 300).
Proof.
  apply (chain_short_circuit (mkPrinter (mkFile EmptyString None) 300)). reflexivity.
Defined.

(** ** C7 *)

(** A [Display] of the [f32] values of the tape used below. *)
Definition tape_f32_display (x : f32) : string :=
  if SFeqb x (lit 300 10) then "30"
  else if SFeqb x (lit 200 10) then "20"
  else if SFeqb x (lit 20 10) then "2"
  else "0".

(** C7 (claim as stated, refuted): the claim says a successful
    [with_resolution] writes exactly the [SIZE] line followed by the [GAP]
    line; on a 30 mm x 20 mm tape with a 2 mm gap it also writes
    ["CLS\r\n"] after them. *)
Lemma C7_counterexample :
  with_resolution (fun _ => Some (mkFile EmptyString None)) tape_f32_display "/dev/usb/lp0"
    (mkTape (Metric (lit 300 10)) (Some (Metric (lit 200 10))) (Metric (lit 20 10)) None) 300
  = Ok (mkPrinter (mkFile ("SIZE 30 mm,20 mm" ++ crlf ++ "GAP 2 mm" ++ crlf ++ "CLS" ++ crlf)
                          None) 300) /\
  "SIZE 30 mm,20 mm" ++ crlf ++ "GAP 2 mm" ++ crlf ++ "CLS" ++ crlf
  <> "SIZE 30 mm,20 mm" ++ crlf ++ "GAP 2 mm" ++ crlf.
Proof. split; [vm_compute; reflexivity | discriminate]. Qed.

(** C7 (amended): [with_resolution] fails with the open error when the
    device cannot be opened; otherwise, on a sink that accepts every write,
    it writes, in order, the [SIZE] line, the [GAP] line and ["CLS\r\n"],
    and returns the session with the supplied resolution. *)
Theorem with_resolution_writes (open_dev : string -> option File)
    (f32_display : f32 -> string) (path : string) (tape : Tape) (dpi : Z) :
  (open_dev path = None -> with_resolution open_dev f32_display path tape dpi = Err OpenError) /\
  (forall f, open_dev path = Some f -> budget f = None ->
     with_resolution open_dev f32_display path tape dpi =
     Ok (mkPrinter (mkFile (contents f ++ size_line f32_display tape
                            ++ gap_line f32_display tape ++ ("CLS" ++ crlf)) None) dpi)).
Proof.
  split.
  - intros H. unfold with_resolution. rewrite H. reflexivity.
  - intros f Hf Hb. unfold with_resolution. rewrite Hf.
    unfold Cmd.size, Cmd.gap, Cmd.cls. cbv beta zeta.
    rewrite CmdFacts.write_ret_bind by assumption.
    rewrite CmdFacts.write_ret_bind by assumption.
    rewrite CmdFacts.write_ret_ok by assumption.
    unfold sink_after, size_line, gap_line. cbn [file contents budget resolution].
    rewrite Hb.
    destruct (height tape), (gap_offset tape);
      repeat rewrite CmdFacts.str_app_assoc; reflexivity.
Qed.

Lemma with_resolution_writes_witness :
  with_resolution (fun _ => Some (mkFile EmptyString None)) tape_f32_display "/dev/usb/lp0"
    (mkTape (Metric (lit 300 10)) None (Metric (lit 20 10)) None) 203
  = Ok (mkPrinter (mkFile (EmptyString
                           ++ size_line tape_f32_display
                                (mkTape (Metric (lit 300 10)) None (Metric (lit 20 10)) None)
                           ++ gap_line tape_f32_display
                                (mkTape (Metric (lit 300 10)) None (Metric (lit 20 10)) None)
                           ++ ("CLS" ++ crlf)) None) 203).
Proof.
  apply (proj2 (with_resolution_writes (fun _ => Some (mkFile EmptyString None))
                  tape_f32_display "/dev/usb/lp0"
                  (mkTape (Metric (lit 300 10)) None (Metric (lit 20 10)) None) 203)
           (mkFile EmptyString None)); reflexivity.
Defined.

(** ** C8 *)

(** C8 (claim as stated, refuted): the claim says [display] and [menu]
    surface their failure as the [Err] outcome of a [Result]; they return
    [()] and call [unimplemented!()], which panics: on any session the
    outcome of [display] is not an [Err]. *)
Lemma C8_counterexample :
  ~ (exists e, fst (Cmd.display (mkPrinter (mkFile EmptyString None) 300)) = Err e).
Proof. intros [e He]. discriminate He. Qed.

(** C8 (amended): [display] and [menu] panic with "not implemented" on every
    call; they never return normally, never write a byte, and a chain that
    runs them stops there with the panic, not with an [Err]. *)
Theorem display_menu_panic (p : Printer) (k : unit -> M unit) :
  Cmd.display p = (Panic "not implemented", p) /\
  Cmd.menu p = (Panic "not implemented", p) /\
  bind Cmd.display k p = (Panic "not implemented", p) /\
  bind Cmd.menu k p = (Panic "not implemented", p).
Proof. repeat split. Qed.

(** ** C9 *)

(** C9: a [block] call that passes validation writes one line starting with
    the keyword ["TEXT "] (never [BLOCK]): the dot-converted x, y, width and
    height, the quoted font, the rotation and both multipliers, then each
    present optional field (space, alignment, fit) followed by a comma, then
    the quoted content and CRLF. *)
Theorem block_writes_text_line x y w h font rotate (mx my : Z) space alignment fit content
    (p : Printer) (Hw : budget (file p) = None)
    (Hm : 1 <= mx <= 10 /\ 1 <= my <= 10) (Hc : (String.length content <= 4096)%nat) :
  Cmd.block x y w h font rotate mx my space alignment fit content p =
  (Ok tt, sink_after p
            ("TEXT " ++ dec (to_dots_raw x (resolution p)) ++ ","
             ++ dec (to_dots_raw y (resolution p)) ++ ","
             ++ dec (to_dots_raw w (resolution p)) ++ ","
             ++ dec (to_dots_raw h (resolution p)) ++ ","
             ++ dq ++ font_token font ++ dq ++ "," ++ rotation_token rotate ++ ","
             ++ dec mx ++ "," ++ dec my ++ ","
             ++ opt_field (fun s => dec (to_dots_raw s (resolution p))) space
             ++ opt_field alignment_token alignment
             ++ opt_field bool_u8 fit
             ++ dq ++ content ++ dq ++ crlf)).
Proof.
  unfold Cmd.block, bind at 1, get_resolution.
  split_checks; try lia. cbn [negb orb]. cbn beta iota zeta.
  rewrite CmdFacts.write_ret_ok by assumption.
  destruct space, alignment, fit; unfold opt_field;
    repeat rewrite CmdFacts.str_app_assoc; reflexivity.
Qed.

Lemma block_writes_text_line_witness :
  Cmd.block (Dots 10) (Dots 20) (Dots 300) (Dots 100) Font24x32 NoRotation 1 1
    None (Some Center) None "Hi" (mkPrinter (mkFile EmptyString None) 300) =
  (Ok tt, mkPrinter (mkFile ("TEXT 10,20,300,100," ++ dq ++ "4" ++ dq ++ ",0,1,1,2,"
                             ++ dq ++ "Hi" ++ dq ++ crlf) None) 300).
Proof.
  apply (block_writes_text_line (Dots 10) (Dots 20) (Dots 300) (Dots 100) Font24x32 NoRotation
           1 1 None (Some Center) None "Hi" (mkPrinter (mkFile EmptyString None) 300));
    simpl; (reflexivity || lia).
Defined.

(** ** C10 *)

(** C10: [to_dots_raw] is total on physical lengths: for every resolution
    [r] (a [u32]) its result is in [0 ..= u32::MAX]; a negative inch or
    millimetre length gives 0; and a computed dot value above [u32::MAX]
    (the [f32] product, before the cast) gives [u32::MAX] instead of
    wrapping. *)
Theorem to_dots_raw_saturating (x : f32) (r : Z) (Hr : 0 <= r <= u32_max) :
  0 <= to_dots_raw (Imperial x) r <= u32_max /\
  0 <= to_dots_raw (Metric x) r <= u32_max /\
  (f32_negative x -> to_dots_raw (Imperial x) r = 0 /\ to_dots_raw (Metric x) r = 0) /\
  (f32_gt_Z (mul x (of_u32 r)) u32_max -> to_dots_raw (Imperial x) r = u32_max) /\
  (f32_gt_Z (mul (div x mm_per_inch) (of_u32 r)) u32_max ->
     to_dots_raw (Metric x) r = u32_max).
Proof.
  split; [|split; [|split; [|split]]]; unfold to_dots_raw.
  - apply F32Facts.as_u32_bounds.
  - apply F32Facts.as_u32_bounds.
  - intros Hx. apply F32Facts.negative_sign in Hx.
    pose proof (F32Facts.of_u32_sign r ltac:(lia)) as Hr'.
    split; apply F32Facts.as_u32_neg, F32Facts.mul_sign_neg; try assumption.
    apply F32Facts.div_sign_neg; [assumption|reflexivity].
  - apply F32Facts.as_u32_saturates.
  - apply F32Facts.as_u32_saturates.
Qed.

Lemma to_dots_raw_saturating_witness :
  to_dots_raw (Imperial (SFopp (lit 10 10))) 300 = 0 /\
  to_dots_raw (Imperial (lit 20000000 1)) 300 = u32_max.
Proof.
  split.
  - apply (to_dots_raw_saturating (SFopp (lit 10 10)) 300); [unfold u32_max; lia|].
    vm_compute. reflexivity.
  - apply (to_dots_raw_saturating (lit 20000000 1) 300); [unfold u32_max; lia|].
    vm_compute. reflexivity.
Defined.

(** * Further properties of the commands *)

Module ExtraFacts.

Lemma str_length_app (s t : string) :
  String.length (s ++ t) = (String.length s + String.length t)%nat.
Proof. induction s as [|a s IH]; simpl; congruence. Qed.

Lemma str_app_inv_l (s t u : string) : s ++ t = s ++ u -> t = u.
Proof. induction s as [|a s IH]; simpl; [auto|]. intros H. injection H. auto. Qed.

Lemma write_res s f r :
  write_all s (mkPrinter f r) =
  (fst (write_all s (mkPrinter f 0)), mkPrinter (file (snd (write_all s (mkPrinter f 0)))) r).
Proof.
  unfold write_all. cbn [file resolution].
  destruct (budget f); [destruct (_ <=? _)%nat|]; reflexivity.
Qed.

Lemma get_res_bind {B} (k : Z -> M B) p : bind get_resolution k p = k (resolution p) p.
Proof. reflexivity. Qed.

Lemma blind_write s : resolution_blind (write_all s;; ret tt).
Proof.
  intros f r1 r2. unfold bind. rewrite (write_res s f r1), (write_res s f r2).
  destruct (write_all s (mkPrinter f 0)) as [[a|e|m] p']; split; reflexivity.
Qed.

Lemma blind_anyhow msg : resolution_blind (anyhow msg).
Proof. intros f r1 r2. split; reflexivity. Qed.

Lemma write_bind_fits {B} p s n (k : unit -> M B) :
  budget (file p) = Some n -> (String.length s <= n)%nat ->
  bind (write_all s;; ret tt) k p =
  k tt (mkPrinter (mkFile (contents (file p) ++ s) (Some (n - String.length s)%nat))
                  (resolution p)).
Proof.
  intros Hb Hl. apply Nat.leb_le in Hl.
  unfold bind, write_all. rewrite Hb, Hl. reflexivity.
Qed.

Lemma write_bind_short {B} p s n (k : unit -> M B) :
  budget (file p) = Some n -> (n < String.length s)%nat ->
  bind (write_all s;; ret tt) k p =
  (Err IoError, mkPrinter (mkFile (contents (file p) ++ substring 0 n s) (Some 0%nat))
                          (resolution p)).
Proof.
  intros Hb Hl. apply Nat.leb_gt in Hl.
  unfold bind, write_all. rewrite Hb, Hl. reflexivity.
Qed.

Lemma write_ret_fits p s n :
  budget (file p) = Some n -> (String.length s <= n)%nat ->
  (write_all s;; ret tt) p =
  (Ok tt, mkPrinter (mkFile (contents (file p) ++ s) (Some (n - String.length s)%nat))
                    (resolution p)).
Proof.
  intros Hb Hl. apply Nat.leb_le in Hl.
  unfold bind, write_all. rewrite Hb, Hl. reflexivity.
Qed.

Lemma write_ret_short p s n :
  budget (file p) = Some n -> (n < String.length s)%nat ->
  (write_all s;; ret tt) p =
  (Err IoError, mkPrinter (mkFile (contents (file p) ++ substring 0 n s) (Some 0%nat))
                          (resolution p)).
Proof.
  intros Hb Hl. apply Nat.leb_gt in Hl.
  unfold bind, write_all. rewrite Hb, Hl. reflexivity.
Qed.

Lemma size_as_line fd tape :
  Cmd.size fd (width tape) (height tape) = (write_all (size_line fd tape);; ret tt).
Proof.
  unfold Cmd.size, size_line. cbv zeta.
  destruct (height tape); repeat rewrite CmdFacts.str_app_assoc; reflexivity.
Qed.

Lemma gap_as_line fd tape :
  Cmd.gap fd (gap tape) (gap_offset tape) = (write_all (gap_line fd tape);; ret tt).
Proof.
  unfold Cmd.gap, gap_line. cbv zeta.
  destruct (gap_offset tape); repeat rewrite CmdFacts.str_app_assoc; reflexivity.
Qed.

End ExtraFacts.

(** ** X1 *)



(** ** X2 *)

(** X2: on a sink that accepts every write, [density(d)] succeeds exactly
    for [1 <= d <= 15] and writes ["DENSITY d"]; a density of 0 is rejected
    (the error text reads "0..15"); [sound(level, interval)] succeeds
    exactly for [0 <= level <= 9] and [1 <= interval <= 4095] and writes
    ["SOUND level,interval"]. *)
Theorem density_sound_accept (d level interval : Z) (p : Printer)
    (Hw : budget (file p) = None) :
  ((exists p', Cmd.density d p = (Ok tt, p')) <-> 1 <= d <= 15) /\
  (1 <= d <= 15 -> Cmd.density d p = (Ok tt, sink_after p ("DENSITY " ++ dec d ++ crlf))) /\
  Cmd.density 0 p = (Err (ValidationError "Density should be in range 0..15"), p) /\
  ((exists p', Cmd.sound level interval p = (Ok tt, p')) <->
     0 <= level <= 9 /\ 1 <= interval <= 4095) /\
  (0 <= level <= 9 -> 1 <= interval <= 4095 ->
     Cmd.sound level interval p =
     (Ok tt, sink_after p ("SOUND " ++ dec level ++ "," ++ dec interval ++ crlf))).
Proof.
  unfold Cmd.density, Cmd.sound.
  split; [|split; [|split; [|split]]].
  - split_checks; rewrite ?CmdFacts.write_ret_ok by assumption.
    + split; [lia|]. eexists; reflexivity.
    + split; [intros [p' Hp']; discriminate Hp'|lia].
  - intros H. split_checks; [|lia]. apply CmdFacts.write_ret_ok. assumption.
  - reflexivity.
  - split_checks; cbn [andb]; rewrite ?CmdFacts.write_ret_ok by assumption.
    all: split; [try (intros [p' Hp']; discriminate Hp'); lia|].
    all: intros; try (eexists; reflexivity); lia.
  - intros Hl Hi. split_checks; try lia. cbn [andb]. apply CmdFacts.write_ret_ok. assumption.
Qed.

Lemma density_sound_accept_witness :
  Cmd.sound 9 4095 (mkPrinter (mkFile EmptyString None) 203) =
  (Ok tt, mkPrinter (mkFile ("SOUND 9,4095" ++ crlf) None) 203).
Proof.
  destruct (density_sound_accept 1 9 4095 (mkPrinter (mkFile EmptyString None) 203) eq_refl)
    as [_ [_ [_ [_ H]]]].
  apply H; lia.
Defined.

(** ** X3 *)

(** X3: [print(sets, Some(copies))] with both counts in [1 ..= 999999999]
    writes ["PRINT sets,copies"]; when [sets] is out of range the call fails
    with the sets message whatever [copies] is: [sets] is checked first. *)
Theorem print_sets_then_copies (sets copies : Z) (p : Printer) (Hw : budget (file p) = None) :
  (1 <= sets <= 999999999 -> 1 <= copies <= 999999999 ->
     Cmd.print sets (Some copies) p =
     (Ok tt, sink_after p ("PRINT " ++ dec sets ++ "," ++ dec copies ++ crlf))) /\
  (~ (1 <= sets <= 999999999) -> forall c,
     Cmd.print sets c p =
     (Err (ValidationError ("Sets qty must be in range 1..999999999, got " ++ dec sets)), p)).
Proof.
  unfold Cmd.print. split.
  - intros Hs Hc. split_checks; try lia. apply CmdFacts.write_ret_ok. assumption.
  - intros Hs c. split_checks; [lia|reflexivity].
Qed.

Lemma print_sets_then_copies_witness :
  Cmd.print 0 (Some 0) (mkPrinter (mkFile EmptyString None) 300) =
  (Err (ValidationError ("Sets qty must be in range 1..999999999, got " ++ dec 0)),
   mkPrinter (mkFile EmptyString None) 300).
Proof.
  apply (proj2 (print_sets_then_copies 0 0 (mkPrinter (mkFile EmptyString None) 300) eq_refl)).
  lia.
Defined.

(** ** X4 *)

(** X4: on a sink that accepts every write, [aztec] succeeds exactly when
    [1 <= size <= 20], [ecp <= 300] and [1 <= multi <= 26]; the line it
    then writes ends with the byte length of the content, a comma, the
    content itself (unquoted) and CRLF. *)
Theorem aztec_accepts x y rotate (size ecp : Z) flg menu_ (multi : Z) reversed content
    (p : Printer) (Hw : budget (file p) = None) :
  ((exists p', Cmd.aztec x y rotate size ecp flg menu_ multi reversed content p = (Ok tt, p'))
     <-> 1 <= size <= 20 /\ ecp <= 300 /\ 1 <= multi <= 26) /\
  (1 <= size <= 20 -> ecp <= 300 -> 1 <= multi <= 26 ->
     exists head,
       Cmd.aztec x y rotate size ecp flg menu_ multi reversed content p =
       (Ok tt, sink_after p ("AZTEC " ++ head ++ "," ++ dec (Z.of_nat (String.length content))
                             ++ "," ++ content ++ crlf))).
Proof.
  unfold Cmd.aztec. split_checks; cbn [negb]; rewrite ?ExtraFacts.get_res_bind.
  all: try rewrite CmdFacts.write_ret_ok by assumption.
  all: repeat match goal with
         | |- _ /\ _ => split | |- _ <-> _ => split | |- _ -> _ => intro end.
  all: try first [ lia | eexists; reflexivity
                 | match goal with H : exists _, _ |- _ => destruct H as [? H]; discriminate H end ].
  exists (dec (to_dots_raw x (resolution p)) ++ "," ++ dec (to_dots_raw y (resolution p))
          ++ "," ++ rotation_token rotate ++ "," ++ dec size ++ "," ++ dec ecp
          ++ "," ++ bool_u8 flg ++ "," ++ bool_u8 menu_ ++ "," ++ dec multi
          ++ "," ++ bool_u8 reversed).
  repeat rewrite CmdFacts.str_app_assoc. reflexivity.
Qed.

Lemma aztec_accepts_witness :
  exists head,
    Cmd.aztec (Dots 0) (Dots 0) NoRotation 20 300 true false 26 false "A,B"
      (mkPrinter (mkFile EmptyString None) 300) =
    (Ok tt, sink_after (mkPrinter (mkFile EmptyString None) 300)
              ("AZTEC " ++ head ++ "," ++ dec (Z.of_nat (String.length "A,B"))
               ++ "," ++ "A,B" ++ crlf)).
Proof.
  apply (aztec_accepts (Dots 0) (Dots 0) NoRotation 20 300 true false 26 false "A,B"
           (mkPrinter (mkFile EmptyString None) 300) eq_refl); lia.
Defined.

(** ** X5 *)

(** X5: [rss] requires the segment width exactly for [RssExp] and the
    linear height exactly for the two UCC/EAN-128 types: with a valid module
    width and separator height, a missing required field is a validation
    error (nothing written); a field the type does not use is ignored, and
    every other type ignores both. *)
Theorem rss_type_fields x y t rotate mw (sep : Z) seg lin content (p : Printer) :
  (1 <= to_dots_raw mw (resolution p) <= 10 -> sep = 1 \/ sep = 2 ->
     Cmd.rss x y RssExp rotate mw sep None lin content p =
       (Err (ValidationError "Missed segment width"), p) /\
     Cmd.rss x y Ucc128Cca rotate mw sep seg None content p =
       (Err (ValidationError "UCC/EAN-128 height missed"), p) /\
     Cmd.rss x y Ucc128Ccc rotate mw sep seg None content p =
       (Err (ValidationError "UCC/EAN-128 height missed"), p)) /\
  Cmd.rss x y RssExp rotate mw sep seg lin content p =
    Cmd.rss x y RssExp rotate mw sep seg None content p /\
  (t = Ucc128Cca \/ t = Ucc128Ccc ->
     Cmd.rss x y t rotate mw sep seg lin content p =
     Cmd.rss x y t rotate mw sep None lin content p) /\
  (t <> RssExp -> t <> Ucc128Cca -> t <> Ucc128Ccc ->
     Cmd.rss x y t rotate mw sep seg lin content p =
     Cmd.rss x y t rotate mw sep None None content p).
Proof.
  split; [|split; [|split]].
  - intros Hm Hs. unfold Cmd.rss. rewrite !ExtraFacts.get_res_bind. cbv beta zeta.
    split_checks; cbn [negb andb]; try lia; repeat split; reflexivity.
  - reflexivity.
  - intros [-> | ->]; reflexivity.
  - intros H1 H2 H3. destruct t; try congruence; reflexivity.
Qed.

Lemma rss_type_fields_witness :
  Cmd.rss (Dots 0) (Dots 0) RssExp NoRotation (Dots 2) 1 None None "1"
    (mkPrinter (mkFile EmptyString None) 300) =
  (Err (ValidationError "Missed segment width"), mkPrinter (mkFile EmptyString None) 300).
Proof.
  refine (proj1 (proj1 (rss_type_fields (Dots 0) (Dots 0) Rss14 NoRotation (Dots 2) 1 None None
                          "1" (mkPrinter (mkFile EmptyString None) 300)) _ _)).
  - simpl. lia.
  - left. reflexivity.
Defined.

(** ** X6 *)

(** X6: on a sink that accepts every write, [text] succeeds exactly when
    both multipliers are in [1 ..= 10], whatever the length of the content
    (unlike [block], it has no 4096-byte limit), and writes the
    dot-converted position, the quoted font, the rotation, the multipliers,
    the alignment when given, and the quoted content. *)
Theorem text_accepts x y font rotate (mx my : Z) alignment content (p : Printer)
    (Hw : budget (file p) = None) :
  ((exists p', Cmd.text x y font rotate mx my alignment content p = (Ok tt, p')) <->
     1 <= mx <= 10 /\ 1 <= my <= 10) /\
  (1 <= mx <= 10 -> 1 <= my <= 10 ->
     Cmd.text x y font rotate mx my alignment content p =
     (Ok tt, sink_after p ("TEXT " ++ dec (to_dots_raw x (resolution p)) ++ ","
               ++ dec (to_dots_raw y (resolution p)) ++ "," ++ dq ++ font_token font ++ dq
               ++ "," ++ rotation_token rotate ++ "," ++ dec mx ++ "," ++ dec my
               ++ match alignment with
                  | Some a => "," ++ alignment_token a
                  | None => EmptyString
                  end
               ++ ", " ++ dq ++ content ++ dq ++ crlf))).
Proof.
  unfold Cmd.text. split_checks; cbn [negb orb]; rewrite ?ExtraFacts.get_res_bind; cbv zeta.
  all: try rewrite CmdFacts.write_ret_ok by assumption.
  all: repeat match goal with
         | |- _ /\ _ => split | |- _ <-> _ => split | |- _ -> _ => intro end.
  all: try first [ lia | eexists; reflexivity
                 | match goal with H : exists _, _ |- _ => destruct H as [? H]; discriminate H end ].
  destruct alignment; repeat rewrite CmdFacts.str_app_assoc; reflexivity.
Qed.

Lemma text_accepts_witness :
  Cmd.text (Dots 5) (Dots 6) Font8x12 Rotation90 10 1 None "x"
    (mkPrinter (mkFile EmptyString None) 300) =
  (Ok tt, mkPrinter (mkFile ("TEXT 5,6," ++ dq ++ "1" ++ dq ++ ",90,10,1, " ++ dq ++ "x" ++ dq
                             ++ crlf) None) 300).
Proof.
  rewrite (proj2 (text_accepts (Dots 5) (Dots 6) Font8x12 Rotation90 10 1 None "x"
                    (mkPrinter (mkFile EmptyString None) 300) eq_refl)) by lia.
  reflexivity.
Defined.

(** ** X7 *)

(** X7: [mpdf417] never fails validation: on a sink that accepts every
    write it always succeeds; a column count outside [1 ..= 4] is written
    as 0, exactly as if none was given, and one inside is written as is,
    just before the quoted content. *)
Theorem mpdf417_col_num x y rotate mw mh (col : option Z) content (p : Printer)
    (Hw : budget (file p) = None) :
  (forall c, ~ (1 <= c <= 4) ->
     Cmd.mpdf417 x y rotate mw mh (Some c) content p =
     Cmd.mpdf417 x y rotate mw mh None content p) /\
  (forall c, 1 <= c <= 4 ->
     exists head,
       Cmd.mpdf417 x y rotate mw mh (Some c) content p =
       (Ok tt, sink_after p ("MPDF417 " ++ head ++ "," ++ dec c ++ ", " ++ dq ++ content ++ dq
                             ++ crlf))) /\
  (exists s, Cmd.mpdf417 x y rotate mw mh col content p = (Ok tt, sink_after p s)).
Proof.
  split; [|split].
  - intros c Hc. unfold Cmd.mpdf417. split_checks; [lia|reflexivity].
  - intros c Hc. unfold Cmd.mpdf417. split_checks; [|lia].
    rewrite ExtraFacts.get_res_bind. cbv zeta.
    rewrite CmdFacts.write_ret_ok by assumption.
    exists (dec (to_dots_raw x (resolution p)) ++ "," ++ dec (to_dots_raw y (resolution p))
            ++ "," ++ rotation_token rotate
            ++ "," ++ dec (to_dots_raw (unwrap_or mw (Dots 1)) (resolution p))
            ++ "," ++ dec (to_dots_raw (unwrap_or mh (Dots 10)) (resolution p))).
    repeat rewrite CmdFacts.str_app_assoc. reflexivity.
  - unfold Cmd.mpdf417. rewrite ExtraFacts.get_res_bind. cbv zeta.
    rewrite CmdFacts.write_ret_ok by assumption. eexists. reflexivity.
Qed.

Lemma mpdf417_col_num_witness :
  Cmd.mpdf417 (Dots 0) (Dots 0) NoRotation None None (Some 9) "m"
    (mkPrinter (mkFile EmptyString None) 300) =
  Cmd.mpdf417 (Dots 0) (Dots 0) NoRotation None None None "m"
    (mkPrinter (mkFile EmptyString None) 300).
Proof.
  apply (proj1 (mpdf417_col_num (Dots 0) (Dots 0) NoRotation None None None "m"
                  (mkPrinter (mkFile EmptyString None) 300) eq_refl)).
  lia.
Defined.

(** ** X8 *)


(** ** X9 *)

(** X9: the commands that take no length, or that print a length with its
    unit through [Display] ([SIZE], [GAP], [BLINE], [OFFSET], [LIMITFEED])
    instead of converting it to dots, behave the same at every resolution;
    a command that converts, such as [reference], does not. *)
Theorem display_commands_resolution_blind (fd : f32 -> string) (w : Size) (h : option Size)
    (g : Size) (go : option Size) (a b n : Size) (mm : option (Size * Size)) (sp : string)
    (b1 b2 : bool) (c : Country) (cp : Codepage) (t : Selftest) (d : Duration)
    (den sets lvl itv : Z) (copies : option Z) :
  resolution_blind (Cmd.size fd w h) /\ resolution_blind (Cmd.gap fd g go) /\
  resolution_blind (Cmd.bline fd a b) /\ resolution_blind (Cmd.offset fd a) /\
  resolution_blind (Cmd.limit_feed fd n mm) /\ resolution_blind (Cmd.speed sp) /\
  resolution_blind (Cmd.direction b1 b2) /\ resolution_blind (Cmd.country c) /\
  resolution_blind (Cmd.codepage cp) /\ resolution_blind (Cmd.selftest t) /\
  resolution_blind (Cmd.delay d) /\ resolution_blind (Cmd.density den) /\
  resolution_blind (Cmd.print sets copies) /\ resolution_blind (Cmd.sound lvl itv) /\
  resolution_blind Cmd.cls /\ resolution_blind Cmd.cut /\ resolution_blind Cmd.formfeed /\
  resolution_blind Cmd.home /\ resolution_blind Cmd.eoj /\
  resolution_blind Cmd.initial_printer /\
  ~ resolution_blind (Cmd.reference (Metric (lit 10 1)) (Dots 0)).
Proof.
  repeat match goal with |- _ /\ _ => split end; try apply ExtraFacts.blind_write.
  - unfold Cmd.density. destruct (Cmd.in_range 1 15 den);
      [apply ExtraFacts.blind_write | apply ExtraFacts.blind_anyhow].
  - unfold Cmd.print. destruct (Cmd.in_range 1 999999999 sets);
      [|apply ExtraFacts.blind_anyhow].
    destruct copies as [k|]; [|apply ExtraFacts.blind_write].
    destruct (Cmd.in_range 1 999999999 k);
      [apply ExtraFacts.blind_write | apply ExtraFacts.blind_anyhow].
  - unfold Cmd.sound. destruct (Cmd.in_range 0 9 lvl && Cmd.in_range 1 4095 itv);
      [apply ExtraFacts.blind_write | apply ExtraFacts.blind_anyhow].
  - intros H. destruct (H (mkFile EmptyString None) 300 203) as [_ H2].
    vm_compute in H2. discriminate H2.
Qed.

(** ** X10 *)

(** X10: every command that converts lengths to dots depends on a length
    only through its dot count at the session's resolution: replacing each
    length [s] by [Dots (to_dots_raw s r)] leaves the outcome and the bytes
    written unchanged, so [Imperial], [Metric] and [Dots] lengths with the
    same dot count are interchangeable. *)
Theorem dot_commands_depend_on_dots (p : Printer) (x y w h th : Size) (xy : option (Size * Size))
    (ox o1 o2 o3 o4 o5 : option Size) (rotate : Rotation) (font : Font) (bc : Barcode)
    (hr : HumanReadable) (nw : NarrowWide) (al : option Alignment) (just : option QrCodeJustification)
    (mode : BitmapMode) (t : RssType) (fit : option bool) (col seg lin : option Z)
    (k1 k2 k3 k4 k5 : Z) (b1 b2 b3 : bool) (s1 s2 s3 : string) :
  let d := as_dots (resolution p) in
  let od := option_map d in
  let pd := option_map (fun '(a, b) => (d a, d b)) in
  Cmd.gap_detect xy p = Cmd.gap_detect (pd xy) p /\
  Cmd.bline_detect xy p = Cmd.bline_detect (pd xy) p /\
  Cmd.auto_detect xy p = Cmd.auto_detect (pd xy) p /\
  Cmd.reference x y p = Cmd.reference (d x) (d y) p /\
  Cmd.shift ox y p = Cmd.shift (od ox) (d y) p /\
  Cmd.feed x p = Cmd.feed (d x) p /\
  Cmd.backup x p = Cmd.backup (d x) p /\
  Cmd.backfeed x p = Cmd.backfeed (d x) p /\
  Cmd.bar x y w h p = Cmd.bar (d x) (d y) (d w) (d h) p /\
  Cmd.barcode x y bc h hr rotate nw al s1 p = Cmd.barcode (d x) (d y) bc (d h) hr rotate nw al s1 p /\
  Cmd.tlc39 x y rotate o1 o2 o3 o4 o5 s1 s2 s3 p =
    Cmd.tlc39 (d x) (d y) rotate (od o1) (od o2) (od o3) (od o4) (od o5) s1 s2 s3 p /\
  Cmd.bitmap x y k1 k2 mode s1 p = Cmd.bitmap (d x) (d y) k1 k2 mode s1 p /\
  Cmd.rectangle x y w h th o1 p = Cmd.rectangle (d x) (d y) (d w) (d h) (d th) (od o1) p /\
  Cmd.circle x y w th p = Cmd.circle (d x) (d y) (d w) (d th) p /\
  Cmd.ellipse x y w h th p = Cmd.ellipse (d x) (d y) (d w) (d h) (d th) p /\
  Cmd.codablock x y rotate o1 o2 s1 p = Cmd.codablock (d x) (d y) rotate (od o1) (od o2) s1 p /\
  Cmd.data_matrix x y w h s1 p = Cmd.data_matrix (d x) (d y) (d w) (d h) s1 p /\
  Cmd.erase x y w h p = Cmd.erase (d x) (d y) (d w) (d h) p /\
  Cmd.pdf417 x y w h rotate s1 p = Cmd.pdf417 (d x) (d y) (d w) (d h) rotate s1 p /\
  Cmd.mpdf417 x y rotate o1 o2 col s1 p = Cmd.mpdf417 (d x) (d y) rotate (od o1) (od o2) col s1 p /\
  Cmd.reverse x y w h p = Cmd.reverse (d x) (d y) (d w) (d h) p /\
  Cmd.diagonal x y w h th p = Cmd.diagonal (d x) (d y) (d w) (d h) (d th) p /\
  Cmd.qrcode x y k1 k2 rotate just s1 p = Cmd.qrcode (d x) (d y) k1 k2 rotate just s1 p /\
  Cmd.rss x y t rotate w k1 seg lin s1 p = Cmd.rss (d x) (d y) t rotate (d w) k1 seg lin s1 p /\
  Cmd.text x y font rotate k1 k2 al s1 p = Cmd.text (d x) (d y) font rotate k1 k2 al s1 p /\
  Cmd.block x y w h font rotate k1 k2 ox al fit s1 p =
    Cmd.block (d x) (d y) (d w) (d h) font rotate k1 k2 (od ox) al fit s1 p /\
  Cmd.aztec x y rotate k1 k2 b1 b2 k3 b3 s1 p = Cmd.aztec (d x) (d y) rotate k1 k2 b1 b2 k3 b3 s1 p.
Proof.
  cbv zeta. repeat match goal with |- _ /\ _ => split end.
  all: repeat match goal with
         | |- context [option_map _ ?o] =>
             is_var o;
             lazymatch type of o with
             | option (Size * Size) => destruct o as [[? ?]|]
             | option Size => destruct o
             end
         end.
  all: unfold Cmd.gap_detect, Cmd.bline_detect, Cmd.auto_detect, Cmd.reference, Cmd.shift,
         Cmd.feed, Cmd.backup, Cmd.backfeed, Cmd.bar, Cmd.barcode, Cmd.tlc39, Cmd.bitmap,
         Cmd.rectangle, Cmd.circle, Cmd.ellipse, Cmd.codablock, Cmd.data_matrix, Cmd.erase,
         Cmd.pdf417, Cmd.mpdf417, Cmd.reverse, Cmd.diagonal, Cmd.qrcode, Cmd.rss, Cmd.text,
         Cmd.block, Cmd.aztec.
  all: cbv zeta.
  all: repeat match goal with |- context [if ?b then _ else _] => destruct b end.
  all: cbv beta iota.
  all: rewrite ?ExtraFacts.get_res_bind; unfold as_dots; cbn [to_dots_raw option_map unwrap_or].
  all: reflexivity.
Qed.

(** ** X11 *)

(** X11: at a resolution of 0 dpi every inch or millimetre length converts
    to 0 dots, whatever its value (an infinite one included: the product
    is NaN); and at any resolution a zero or NaN length converts to 0. *)
Theorem to_dots_raw_zero_nan (x : f32) (r : Z) :
  to_dots_raw (Imperial x) 0 = 0 /\ to_dots_raw (Metric x) 0 = 0 /\
  (forall s, to_dots_raw (Imperial (S754_zero s)) r = 0 /\
             to_dots_raw (Metric (S754_zero s)) r = 0) /\
  to_dots_raw (Imperial S754_nan) r = 0 /\ to_dots_raw (Metric S754_nan) r = 0.
Proof.
  unfold to_dots_raw, mul.
  replace (of_u32 0) with (S754_zero false) by reflexivity.
  split; [|split; [|split; [|split]]].
  - destruct x; reflexivity.
  - destruct (div x mm_per_inch); reflexivity.
  - intros s.
    replace (div (S754_zero s) mm_per_inch) with (S754_zero s)
      by (destruct s; vm_compute; reflexivity).
    split; destruct (of_u32 r); reflexivity.
  - destruct (of_u32 r); reflexivity.
  - replace (div S754_nan mm_per_inch) with S754_nan by (vm_compute; reflexivity).
    destruct (of_u32 r); reflexivity.
Qed.

(** ** X12 *)



(** ** X13 *)

(** X13: [delay(d)] writes the whole milliseconds of [d]
    ([secs * 1000 + nanos / 1000000], the rest truncated); a delay shorter
    than one millisecond is written as ["DELAY 0"]. *)
Theorem delay_whole_milliseconds (d : Duration) (p : Printer) (Hw : budget (file p) = None) :
  Cmd.delay d p =
    (Ok tt, sink_after p ("DELAY " ++ dec (secs d * 1000 + nanos d / 1000000) ++ crlf)) /\
  (secs d = 0 -> 0 <= nanos d < 1000000 ->
     Cmd.delay d p = (Ok tt, sink_after p ("DELAY 0" ++ crlf))).
Proof.
  unfold Cmd.delay, as_millis. split.
  - apply CmdFacts.write_ret_ok. assumption.
  - intros Hs Hn. rewrite Hs, (Z.div_small (nanos d) 1000000) by lia.
    apply CmdFacts.write_ret_ok. assumption.
Qed.

Lemma delay_whole_milliseconds_witness :
  Cmd.delay (mkDuration 0 999999) (mkPrinter (mkFile EmptyString None) 300) =
  (Ok tt, mkPrinter (mkFile ("DELAY 0" ++ crlf) None) 300).
Proof.
  apply (proj2 (delay_whole_milliseconds (mkDuration 0 999999)
                  (mkPrinter (mkFile EmptyString None) 300) eq_refl)); simpl; lia.
Defined.

(** ** X14 *)

(** X14: when the device accepts only [n] more bytes, [with_resolution]
    fails with the I/O error (and returns no session) if [n] is smaller
    than the [SIZE], [GAP] and [CLS] lines together; otherwise it succeeds
    with those lines written and [n] reduced by their length. *)
Theorem with_resolution_budget (open_dev : string -> option File) (fd : f32 -> string)
    (path : string) (tape : Tape) (dpi : Z) (f : File) (n : nat)
    (Hf : open_dev path = Some f) (Hb : budget f = Some n) :
  ((n < String.length (setup_lines fd tape))%nat ->
     with_resolution open_dev fd path tape dpi = Err IoError) /\
  ((String.length (setup_lines fd tape) <= n)%nat ->
     with_resolution open_dev fd path tape dpi =
     Ok (mkPrinter (mkFile (contents f ++ setup_lines fd tape)
                           (Some (n - String.length (setup_lines fd tape))%nat)) dpi)).
Proof.
  unfold with_resolution. rewrite Hf.
  rewrite ExtraFacts.size_as_line, ExtraFacts.gap_as_line. unfold Cmd.cls, setup_lines.
  set (L1 := size_line fd tape). set (L2 := gap_line fd tape). set (L3 := "CLS" ++ crlf).
  rewrite !ExtraFacts.str_length_app.
  destruct (Nat.lt_ge_cases n (String.length L1)) as [H1|H1].
  { rewrite (ExtraFacts.write_bind_short _ _ n) by first [assumption | reflexivity | cbn; assumption]. split; [reflexivity|lia]. }
  rewrite (ExtraFacts.write_bind_fits _ _ n) by first [assumption | reflexivity | cbn; assumption]. cbv beta.
  destruct (Nat.lt_ge_cases (n - String.length L1) (String.length L2)) as [H2|H2].
  { rewrite (ExtraFacts.write_bind_short _ _ (n - String.length L1)) by first [assumption | reflexivity | cbn; assumption].
    split; [reflexivity|lia]. }
  rewrite (ExtraFacts.write_bind_fits _ _ (n - String.length L1)) by first [assumption | reflexivity | cbn; assumption].
  cbv beta.
  destruct (Nat.lt_ge_cases (n - String.length L1 - String.length L2) (String.length L3))
    as [H3|H3].
  { rewrite (ExtraFacts.write_ret_short _ _ (n - String.length L1 - String.length L2))
      by first [assumption | reflexivity | cbn; assumption].
    split; [reflexivity|lia]. }
  rewrite (ExtraFacts.write_ret_fits _ _ (n - String.length L1 - String.length L2))
    by first [assumption | reflexivity | cbn; assumption].
  split; [lia|]. intros _. cbn [file contents].
  rewrite !CmdFacts.str_app_assoc.
  replace (n - String.length L1 - String.length L2 - String.length L3)%nat
    with (n - (String.length L1 + (String.length L2 + String.length L3)))%nat by lia.
  reflexivity.
Qed.

Lemma with_resolution_budget_witness :
  with_resolution (fun _ => Some (mkFile EmptyString (Some 4%nat))) tape_f32_display "/dev/usb/lp0"
    (mkTape (Dots 240) None (Dots 24) None) 203 = Err IoError.
Proof.
  apply (proj1 (with_resolution_budget (fun _ => Some (mkFile EmptyString (Some 4%nat)))
                  tape_f32_display "/dev/usb/lp0" (mkTape (Dots 240) None (Dots 24) None) 203
                  (mkFile EmptyString (Some 4%nat)) 4 eq_refl eq_refl)).
  vm_compute. lia.
Defined.

(** ** X15 *)

(** X15: on a sink that accepts every write, different countries write
    different [COUNTRY] lines: the three-digit codes of [Country] are
    pairwise distinct. *)
Theorem country_lines_distinct (c1 c2 : Country) (p : Printer) (Hw : budget (file p) = None) :
  snd (Cmd.country c1 p) = snd (Cmd.country c2 p) -> c1 = c2.
Proof.
  unfold Cmd.country. rewrite !CmdFacts.write_ret_ok by assumption.
  cbn [snd]. unfold sink_after. intros H. injection H as H.
  apply ExtraFacts.str_app_inv_l in H.
  destruct c1, c2; try reflexivity; vm_compute in H; discriminate H.
Qed.

Lemma country_lines_distinct_witness : Usa = Usa.
Proof.
  apply (country_lines_distinct Usa Usa (mkPrinter (mkFile EmptyString None) 300) eq_refl).
  reflexivity.
Defined.
